(** * froggit-go: the GitHub and GitLab adapters of [vcsclient]

    A shallow embedding of [vcsclient/github.go] and [vcsclient/gitlab.go].
    Every adapter method becomes a state-passing function over a [World]
    that records, in order, each call handed to the platform SDK.  The
    platform itself is a deterministic handler that answers a call from the
    calls made so far, so "no network call was made" reads [log w' = log w]. *)

From stdpp Require Import gmap strings list fin_maps pretty.
From Stdlib Require Import ZArith Lia Ascii.

Open Scope string_scope.
Open Scope list_scope.
Open Scope Z_scope.

(** ** Go values *)

(** Go's [int] on the 64-bit targets the library is built for: [z] reduced
    to the two's-complement range. *)
Definition int_wrap (z : Z) : Z := (z + 2 ^ 63) `mod` 2 ^ 64 - 2 ^ 63.

Definition int_range (z : Z) : Prop := - 2 ^ 63 ≤ z < 2 ^ 63.

(** [n++] and [n + 1] on an [int]. *)
Definition int_succ (n : Z) : Z := int_wrap (n + 1).

(** [strings.TrimSuffix]. *)
Definition TrimSuffix (s suffix : string) : string :=
  let n := String.length s in
  let k := String.length suffix in
  if bool_decide (k ≤ n)%nat && bool_decide (String.substring (n - k)%nat k s = suffix)
  then String.substring 0 (n - k)%nat s
  else s.

(** The [error] values an adapter method can hand back.  The platform's own
    failures are carried unchanged inside [PlatformError]. *)
Inductive error : Type :=
  | ValidationError
  | UrlError (input : string)
  | NumError (input : string)
  | PlatformError (msg : string).

#[global] Instance error_eq_dec : EqDecision error.
Proof. solve_decision. Defined.

(** What an SDK call gives back: its value, or the platform's failure. *)
Definition result (T : Type) : Type := T + string.

(** ** Domain model *)

(** The enumerations [CommitStatus], [Permission] (package [vcsclient]) and
    [WebhookEvent] (package [vcsutils]) are declared outside the two adapter
    files.  The adapters only compare their values against the named
    constants, so they are taken as types with decidable equality; the
    constants a [switch] lists in separate cases are pairwise different,
    as Go requires of the cases of one [switch]. *)
Class Vocabulary : Type := {
  CommitStatus : Type;
  CommitStatus_eq_dec :: EqDecision CommitStatus;
  Pass : CommitStatus;
  Fail : CommitStatus;
  Error : CommitStatus;
  InProgress : CommitStatus;
  CommitStatus_cases : NoDup [Pass; Fail; Error; InProgress];
  WebhookEvent : Type;
  WebhookEvent_eq_dec :: EqDecision WebhookEvent;
  PrCreated : WebhookEvent;
  PrEdited : WebhookEvent;
  Push : WebhookEvent;
  WebhookEvent_cases : NoDup [PrCreated; PrEdited; Push];
  Permission : Type;
  Permission_eq_dec :: EqDecision Permission;
  ReadWrite : Permission
}.

(** Library functions the adapters call and whose code is not theirs:
    [url.Parse], [strconv.ParseInt(s, 10, 64)], [strconv.Atoi],
    [vcsutils.CreateToken] (the [n]-th token drawn) and the blank test of
    the argument validation. *)
Class Externals : Type := {
  URL : Type;
  url_Parse : string → option URL;
  strconv_ParseInt : string → option Z;
  strconv_Atoi : string → option Z;
  token_at : nat → string;
  isBlank : string → bool
}.

Record VcsInfo : Type := {
  ApiEndpoint : string;
  Token : string;
  Username : string
}.

Record CommitInfo : Type := {
  Hash : string;
  AuthorName : string;
  CommitterName : string;
  Url : string;
  Timestamp : Z;
  Message : string;
  ParentHashes : list string
}.

(** [CommitInfo{}] *)
Definition CommitInfo_zero : CommitInfo :=
  {| Hash := ""; AuthorName := ""; CommitterName := ""; Url := "";
     Timestamp := 0; Message := ""; ParentHashes := [] |}.

Record CloneInfo : Type := { HTTP : string; SSH : string }.
Record RepositoryInfo : Type := { RepositoryInfo_CloneInfo : CloneInfo }.

Definition RepositoryInfo_zero : RepositoryInfo :=
  {| RepositoryInfo_CloneInfo := {| HTTP := ""; SSH := "" |} |}.

(** ** The world an adapter runs in *)

(** [log]: the calls made so far, oldest first, over the call type [C] of
    the platform; [seed]: how many tokens [vcsutils.CreateToken] has drawn. *)
Record World (C : Type) : Type := mkWorld { log : list C; seed : nat }.
Arguments mkWorld {C} _ _.
Arguments log {C} _.
Arguments seed {C} _.

Definition St (C A : Type) : Type := World C → A * World C.

#[global] Instance St_ret {C} : MRet (St C) := λ A a w, (a, w).
#[global] Instance St_bind {C} : MBind (St C) :=
  λ A B f m w, let '(a, w') := m w in f a w'.

(** [vcsutils.CreateToken()] *)
Definition CreateToken {ext : Externals} {C} : St C string :=
  λ w, (token_at (seed w), mkWorld (log w) (S (seed w))).

(** Modelled from the spec: [validateParametersNotBlank], the helper of
    package [vcsclient] that is declared outside the two adapter files.  It
    receives the required arguments by name and "fails with a validation
    error" exactly when one of the values "is blank". *)
Definition validateParametersNotBlank {ext : Externals}
    (paramNameValueMap : gmap string string) : option error :=
  if decide (map_Exists (λ _ v, isBlank v = true) paramNameValueMap)
  then Some ValidationError
  else None.

(** [strconv.FormatInt(n, 10)] and [strconv.Itoa]: the decimal numeral. *)
Definition FormatInt (n : Z) : string := pretty n.

(** * The GitHub adapter, [vcsclient/github.go] *)
Module GitHub.

(** ** The part of go-github the adapter touches *)

Record Key : Type := { Key_Key : string; Key_Title : string; Key_ReadOnly : bool }.

(** A listed repository; the adapter dereferences [Owner.Login] and [Name]
    unguarded, so both are taken as present. *)
Record Repository : Type := {
  Owner_Login : string;
  Name : string;
  CloneURL : option string;
  SSHURL : option string
}.

Record Response : Type := { LastPage : Z }.

(** [Config] is a [map[string]interface{}] whose three values are strings. *)
Record Hook : Type := { Events : list string; Config : gmap string string }.

Record RepoStatus : Type := {
  Context : string;
  TargetURL : string;
  State : string;
  Description : string
}.

Record NewPullRequest : Type := {
  Title : string;
  Body : string;
  Head : string;
  Base : string
}.

Record CommitsListOptions : Type := {
  SHA : string;
  Page : Z;
  PerPage : Z
}.

(** Commit payloads: every field is a pointer that may be [nil]. *)
Record CommitAuthor : Type := {
  Date : option Z;   (* seconds since the Unix epoch *)
  Author_Name : option string
}.

Record Commit : Type := {
  Commit_SHA : option string;
  Author : option CommitAuthor;
  Committer : option CommitAuthor;
  Commit_Message : option string
}.

Record RepositoryCommit : Type := {
  RC_SHA : option string;
  RC_Commit : option Commit;
  RC_URL : option string;
  Parents : list (option Commit)
}.

(** The calls the adapter makes, indexed by what they answer.  [Http_Get]
    is the plain [http.Client] download of an archive link and [Untar] the
    hand-over of its body to [vcsutils.Untar]. *)
Inductive Req : Type → Type :=
  | Zen : Req string
  | Repositories_CreateKey (owner repo : string) (key : Key) : Req unit
  | Repositories_List (user : string) (page : Z) : Req (list Repository * Response)
  | Repositories_ListBranches (owner repo : string) : Req (list string)
  | Repositories_CreateHook (owner repo : string) (hook : Hook) : Req Z
  | Repositories_EditHook (owner repo : string) (id : Z) (hook : Hook) : Req unit
  | Repositories_DeleteHook (owner repo : string) (id : Z) : Req unit
  | Repositories_CreateStatus (owner repo ref : string) (status : RepoStatus) : Req unit
  | Repositories_GetArchiveLink (owner repo ref : string) : Req string
  | Http_Get (url : string) : Req string
  | Untar (localPath body : string) : Req unit
  | PullRequests_Create (owner repo : string) (pull : NewPullRequest) : Req unit
  | Repositories_ListCommits (owner repo : string) (opts : CommitsListOptions)
      : Req (list RepositoryCommit)
  | Repositories_Get (owner repo : string) : Req Repository
  | Repositories_GetCommit (owner repo sha : string) : Req RepositoryCommit.

Definition Call : Type := { T : Type & Req T }.
Definition call {T} (r : Req T) : Call := existT T r.

Section Adapter.
Context {vocab : Vocabulary} {ext : Externals}.

(** [*github.Client]: the bearer token of its transport, if any, and the
    base URL when it is not the library's default. *)
Record Client : Type := { AccessToken : option string; BaseURL : option URL }.

(** The platform: answers a call of a client from the calls made before. *)
Class Server : Type := serve : ∀ T, Client → list Call → Req T → result T.

Context {github : Server}.

Definition perform {T} (c : Client) (r : Req T) : St Call (result T) :=
  λ w, (serve T c (log w) r, mkWorld (log w ++ [call r]) (seed w)).

Record GitHubClient : Type := { vcsInfo : VcsInfo }.


Definition buildGithubClient (client : GitHubClient) : Client + error :=
  let httpClient : option string :=
    if decide (Token (vcsInfo client) ≠ "") then Some (Token (vcsInfo client)) else None in
  let ghClient := {| AccessToken := httpClient; BaseURL := None |} in
  if decide (ApiEndpoint (vcsInfo client) ≠ "") then
    match url_Parse (TrimSuffix (ApiEndpoint (vcsInfo client)) "/" +:+ "/") with
    | None => inr (UrlError (TrimSuffix (ApiEndpoint (vcsInfo client)) "/" +:+ "/"))
    | Some baseUrl => inl {| AccessToken := httpClient; BaseURL := Some baseUrl |}
    end
  else inl ghClient.

(** Turns the [err] of an SDK call into the method's [error] result. *)
Definition err_of {T} (r : result T) : option error :=
  match r with inl _ => None | inr msg => Some (PlatformError msg) end.

Definition TestConnection (client : GitHubClient) : St Call (option error) :=
  match buildGithubClient client with
  | inr err => mret (Some err)
  | inl ghClient =>
      r ← perform ghClient Zen;
      mret (err_of r)
  end.

Definition AddSshKeyToRepository (client : GitHubClient)
    (owner repository keyName publicKey : string) (permission : Permission)
    : St Call (option error) :=
  match validateParametersNotBlank
          (<["owner" := owner]> (<["repository" := repository]>
           (<["key name" := keyName]> (<["public key" := publicKey]> ∅)))) with
  | Some err => mret (Some err)
  | None =>
      match buildGithubClient client with
      | inr err => mret (Some err)
      | inl ghClient =>
          let readOnly := true in
          let readOnly := if decide (permission = ReadWrite) then false else readOnly in
          let key := {| Key_Key := publicKey; Key_Title := keyName;
                        Key_ReadOnly := readOnly |} in
          r ← perform ghClient (Repositories_CreateKey owner repository key);
          match r with
          | inr msg => mret (Some (PlatformError msg))
          | inl _ => mret None
          end
      end
  end.

(** [results[*repo.Owner.Login] = append(results[*repo.Owner.Login], *repo.Name)];
    a key that is absent reads as the nil slice. *)
Definition add_repo (results : gmap string (list string)) (repo : Repository)
    : gmap string (list string) :=
  <[Owner_Login repo := default [] (results !! Owner_Login repo) ++ [Name repo]]> results.

(** The [for nextPage := 0; ; nextPage++] loop of [ListRepositories], entered
    at [nextPage] with [results] accumulated so far.  The loop has no bound
    of its own: [fuel] counts the iterations allowed and [None] says it ran
    out. *)
Fixpoint ListRepositories_loop (fuel : nat) (ghClient : Client) (nextPage : Z)
    (results : gmap string (list string))
    : St Call (option (option (gmap string (list string)) * option error)) :=
  match fuel with
  | O => mret None
  | S fuel' =>
      r ← perform ghClient (Repositories_List "" nextPage);
      match r with
      | inr msg => mret (Some (None, Some (PlatformError msg)))
      | inl (repos, response) =>
          let results := foldl add_repo results repos in
          if int_succ nextPage >=? LastPage response
          then mret (Some (Some results, None))
          else ListRepositories_loop fuel' ghClient (int_succ nextPage) results
      end
  end.

Definition ListRepositories (fuel : nat) (client : GitHubClient)
    : St Call (option (option (gmap string (list string)) * option error)) :=
  match buildGithubClient client with
  | inr err => mret (Some (None, Some err))
  | inl ghClient => ListRepositories_loop fuel ghClient 0 ∅
  end.

(** The first component is the slice returned: [None] for [nil]. *)
Definition ListBranches (client : GitHubClient) (owner repository : string)
    : St Call (option (list string) * option error) :=
  match buildGithubClient client with
  | inr err => mret (None, Some err)
  | inl ghClient =>
      r ← perform ghClient (Repositories_ListBranches owner repository);
      match r with
      | inr msg => mret (Some [], Some (PlatformError msg))
      | inl branches => mret (Some (foldl (λ results name, results ++ [name]) [] branches), None)
      end
  end.

(** Get varargs of webhook events and return a slice of GitHub webhook events *)
Definition getGitHubWebhookEvents (webhookEvents : list WebhookEvent) : list string :=
  foldl (λ events event,
           if decide (event = PrCreated ∨ event = PrEdited) then events ++ ["pull_request"]
           else if decide (event = Push) then events ++ ["push"]
           else events)
        [] webhookEvents.

Definition createGitHubHook (token payloadUrl : string) (webhookEvents : list WebhookEvent)
    : Hook :=
  {| Events := getGitHubWebhookEvents webhookEvents;
     Config := <["url" := payloadUrl]> (<["content_type" := "json"]>
               (<["secret" := token]> ∅)) |}.

(** The fourth argument is the branch, which the method leaves unnamed. *)
Definition CreateWebhook (client : GitHubClient) (owner repository _branch payloadUrl : string)
    (webhookEvents : list WebhookEvent) : St Call (string * string * option error) :=
  match buildGithubClient client with
  | inr err => mret ("", "", Some err)
  | inl ghClient =>
      token ← CreateToken;
      let hook := createGitHubHook token payloadUrl webhookEvents in
      r ← perform ghClient (Repositories_CreateHook owner repository hook);
      match r with
      | inr msg => mret ("", "", Some (PlatformError msg))
      | inl id => mret (FormatInt id, token, None)
      end
  end.

Definition UpdateWebhook (client : GitHubClient)
    (owner repository _branch payloadUrl token webhookId : string)
    (webhookEvents : list WebhookEvent) : St Call (option error) :=
  match buildGithubClient client with
  | inr err => mret (Some err)
  | inl ghClient =>
      match strconv_ParseInt webhookId with
      | None => mret (Some (NumError webhookId))
      | Some webhookIdInt64 =>
          let hook := createGitHubHook token payloadUrl webhookEvents in
          r ← perform ghClient (Repositories_EditHook owner repository webhookIdInt64 hook);
          mret (err_of r)
      end
  end.

Definition DeleteWebhook (client : GitHubClient) (owner repository webhookId : string)
    : St Call (option error) :=
  match buildGithubClient client with
  | inr err => mret (Some err)
  | inl ghClient =>
      match strconv_ParseInt webhookId with
      | None => mret (Some (NumError webhookId))
      | Some webhookIdInt64 =>
          r ← perform ghClient (Repositories_DeleteHook owner repository webhookIdInt64);
          mret (err_of r)
      end
  end.

Definition getGitHubCommitState (commitState : CommitStatus) : string :=
  if decide (commitState = Pass) then "success"
  else if decide (commitState = Fail) then "failure"
  else if decide (commitState = Error) then "error"
  else if decide (commitState = InProgress) then "pending"
  else "".

Definition SetCommitStatus (client : GitHubClient) (commitStatus : CommitStatus)
    (owner repository ref title description detailsUrl : string) : St Call (option error) :=
  match buildGithubClient client with
  | inr err => mret (Some err)
  | inl ghClient =>
      let state := getGitHubCommitState commitStatus in
      let status := {| Context := title; TargetURL := detailsUrl; State := state;
                       Description := description |} in
      r ← perform ghClient (Repositories_CreateStatus owner repository ref status);
      mret (err_of r)
  end.

Definition DownloadRepository (client : GitHubClient) (owner repository branch localPath : string)
    : St Call (option error) :=
  match buildGithubClient client with
  | inr err => mret (Some err)
  | inl ghClient =>
      r ← perform ghClient (Repositories_GetArchiveLink owner repository branch);
      match r with
      | inr msg => mret (Some (PlatformError msg))
      | inl baseUrl =>
          resp ← perform ghClient (Http_Get baseUrl);
          match resp with
          | inr msg => mret (Some (PlatformError msg))
          | inl body =>
              u ← perform ghClient (Untar localPath body);
              mret (err_of u)
          end
      end
  end.

Definition CreatePullRequest (client : GitHubClient)
    (owner repository sourceBranch targetBranch title description : string)
    : St Call (option error) :=
  match buildGithubClient client with
  | inr err => mret (Some err)
  | inl ghClient =>
      let head := owner +:+ ":" +:+ sourceBranch in
      r ← perform ghClient (PullRequests_Create owner repository
             {| Title := title; Body := description; Head := head; Base := targetBranch |});
      mret (err_of r)
  end.

(** The nil-safe getters of go-github. *)
Definition GetString (p : option string) : string := default "" p.

(** [time.Time{}.Unix()], the zero time a nil [Date] reads as. *)
Definition zero_time_unix : Z := -62135596800.

Definition GetName (a : option CommitAuthor) : string :=
  match a with Some a => GetString (Author_Name a) | None => "" end.

Definition GetDate (a : option CommitAuthor) : Z :=
  match a with Some a => default zero_time_unix (Date a) | None => zero_time_unix end.

Definition GetSHA (c : option Commit) : string :=
  match c with Some c => GetString (Commit_SHA c) | None => "" end.

Definition mapGitHubCommitToCommitInfo (commit : RepositoryCommit) : CommitInfo :=
  let parents := map GetSHA (Parents commit) in
  let details := RC_Commit commit in
  {| Hash := GetString (RC_SHA commit);
     AuthorName := GetName (details ≫= Author);
     CommitterName := GetName (details ≫= Committer);
     Url := GetString (RC_URL commit);
     Timestamp := GetDate (details ≫= Committer);
     Message := GetString (details ≫= Commit_Message);
     ParentHashes := parents |}.

Definition GetLatestCommit (client : GitHubClient) (owner repository branch : string)
    : St Call (CommitInfo * option error) :=
  match validateParametersNotBlank
          (<["owner" := owner]> (<["repository" := repository]>
           (<["branch" := branch]> ∅))) with
  | Some err => mret (CommitInfo_zero, Some err)
  | None =>
      match buildGithubClient client with
      | inr err => mret (CommitInfo_zero, Some err)
      | inl ghClient =>
          let listOptions := {| SHA := branch; Page := 1; PerPage := 1 |} in
          r ← perform ghClient (Repositories_ListCommits owner repository listOptions);
          match r with
          | inr msg => mret (CommitInfo_zero, Some (PlatformError msg))
          | inl commits =>
              match commits with
              | latestCommit :: _ => mret (mapGitHubCommitToCommitInfo latestCommit, None)
              | [] => mret (CommitInfo_zero, None)
              end
          end
      end
  end.

Definition GetRepositoryInfo (client : GitHubClient) (owner repository : string)
    : St Call (RepositoryInfo * option error) :=
  match validateParametersNotBlank
          (<["owner" := owner]> (<["repository" := repository]> ∅)) with
  | Some err => mret (RepositoryInfo_zero, Some err)
  | None =>
      match buildGithubClient client with
      | inr err => mret (RepositoryInfo_zero, Some err)
      | inl ghClient =>
          r ← perform ghClient (Repositories_Get owner repository);
          match r with
          | inr msg => mret (RepositoryInfo_zero, Some (PlatformError msg))
          | inl repo =>
              mret ({| RepositoryInfo_CloneInfo :=
                         {| HTTP := GetString (CloneURL repo);
                            SSH := GetString (SSHURL repo) |} |}, None)
          end
      end
  end.

Definition GetCommitBySha (client : GitHubClient) (owner repository sha : string)
    : St Call (CommitInfo * option error) :=
  match validateParametersNotBlank
          (<["owner" := owner]> (<["repository" := repository]>
           (<["sha" := sha]> ∅))) with
  | Some err => mret (CommitInfo_zero, Some err)
  | None =>
      match buildGithubClient client with
      | inr err => mret (CommitInfo_zero, Some err)
      | inl ghClient =>
          r ← perform ghClient (Repositories_GetCommit owner repository sha);
          match r with
          | inr msg => mret (CommitInfo_zero, Some (PlatformError msg))
          | inl commit => mret (mapGitHubCommitToCommitInfo commit, None)
          end
      end
  end.

End Adapter.
End GitHub.

(** * The GitLab adapter, [vcsclient/gitlab.go] *)
Module GitLab.

(** ** The part of go-gitlab the adapter touches *)

Record Response : Type := { TotalPages : Z }.

Record ProjectHook : Type := {
  URL : string;
  MergeRequestsEvents : bool;
  PushEvents : bool;
  PushEventsBranchFilter : string
}.

(** [AddProjectHookOptions] and [EditProjectHookOptions] carry the same five
    fields. *)
Record ProjectHookOptions : Type := {
  Opt_Token : string;
  Opt_URL : string;
  Opt_MergeRequestsEvents : bool;
  Opt_PushEvents : bool;
  Opt_PushEventsBranchFilter : string
}.

Record SetCommitStatusOptions : Type := {
  State : string;
  Ref : string;
  Name : string;
  Description : string;
  TargetURL : string
}.

Record ArchiveOptions : Type := { Format : string; SHA : string }.

Record CreateMergeRequestOptions : Type := {
  Title : string;
  MR_Description : string;
  SourceBranch : string;
  TargetBranch : string
}.

(** Groups, projects and branches are used through their [Path] or [Name]
    alone and are kept as that string. *)
Inductive Req : Type → Type :=
  | Projects_ListProjects : Req unit
  | Groups_ListGroups : Req (list string)
  | Groups_ListGroupProjects (gid : string) (page : Z) : Req (list string * Response)
  | Branches_ListBranches (pid : string) : Req (list string)
  | Projects_AddProjectHook (pid : string) (opt : ProjectHookOptions) : Req Z
  | Projects_EditProjectHook (pid : string) (hook : Z) (opt : ProjectHookOptions) : Req unit
  | Projects_DeleteProjectHook (pid : string) (hook : Z) : Req unit
  | Commits_SetCommitStatus (pid sha : string) (opt : SetCommitStatusOptions) : Req unit
  | Repositories_Archive (pid : string) (opt : ArchiveOptions) : Req string
  | Untar (localPath body : string) : Req unit
  | MergeRequests_CreateMergeRequest (pid : string) (opt : CreateMergeRequestOptions)
      : Req unit.

Definition Call : Type := { T : Type & Req T }.
Definition call {T} (r : Req T) : Call := existT T r.

(** go-gitlab: its client type, [gitlab.NewClient(token)] (no base URL) and
    [gitlab.NewClient(token, gitlab.WithBaseURL(url))], and the platform
    answering the calls of a client. *)
Class Sdk : Type := {
  Client : Type;
  NewClient : string → option string → result Client;
  serve : ∀ T, Client → list Call → Req T → result T
}.

Section Adapter.
Context {vocab : Vocabulary} {ext : Externals} {gitlab : Sdk}.

Definition perform {T} (c : Client) (r : Req T) : St Call (result T) :=
  λ w, (serve T c (log w) r, mkWorld (log w ++ [call r]) (seed w)).

Definition err_of {T} (r : result T) : option error :=
  match r with inl _ => None | inr msg => Some (PlatformError msg) end.

Record GitLabClient : Type := { glClient : Client }.


Definition TestConnection (client : GitLabClient) : St Call (option error) :=
  r ← perform (glClient client) Projects_ListProjects;
  mret (err_of r).

Definition add_project (group : string) (results : gmap string (list string))
    (project : string) : gmap string (list string) :=
  <[group := default [] (results !! group) ++ [project]]> results.

(** The [for pageId := 1; ; pageId++] loop over the project pages of one
    group, entered at [pageId]; [fuel] bounds the iterations as for GitHub.
    [inr] is the [return nil, err] that leaves the whole method. *)
Fixpoint ListGroupProjects_loop (fuel : nat) (client : GitLabClient) (group : string)
    (pageId : Z) (results : gmap string (list string))
    : St Call (option (gmap string (list string) + error)) :=
  match fuel with
  | O => mret None
  | S fuel' =>
      r ← perform (glClient client) (Groups_ListGroupProjects group pageId);
      match r with
      | inr msg => mret (Some (inr (PlatformError msg)))
      | inl (projects, response) =>
          let results := foldl (add_project group) results projects in
          if pageId >=? TotalPages response
          then mret (Some (inl results))
          else ListGroupProjects_loop fuel' client group (int_succ pageId) results
      end
  end.

(** The [for _, group := range groups] loop around it. *)
Fixpoint ListRepositories_groups (fuel : nat) (client : GitLabClient) (groups : list string)
    (results : gmap string (list string))
    : St Call (option (option (gmap string (list string)) * option error)) :=
  match groups with
  | [] => mret (Some (Some results, None))
  | group :: groups' =>
      r ← ListGroupProjects_loop fuel client group 1 results;
      match r with
      | None => mret None
      | Some (inr err) => mret (Some (None, Some err))
      | Some (inl results) => ListRepositories_groups fuel client groups' results
      end
  end.

Definition ListRepositories (fuel : nat) (client : GitLabClient)
    : St Call (option (option (gmap string (list string)) * option error)) :=
  let results : gmap string (list string) := ∅ in
  r ← perform (glClient client) Groups_ListGroups;
  match r with
  | inr msg => mret (Some (Some results, Some (PlatformError msg)))
  | inl groups => ListRepositories_groups fuel client groups results
  end.

Definition getProjectId (owner project : string) : string :=
  owner +:+ "/" +:+ project.

Definition ListBranches (client : GitLabClient) (owner repository : string)
    : St Call (option (list string) * option error) :=
  r ← perform (glClient client) (Branches_ListBranches (getProjectId owner repository));
  match r with
  | inr msg => mret (None, Some (PlatformError msg))
  | inl branches => mret (Some (foldl (λ results name, results ++ [name]) [] branches), None)
  end.

Definition createProjectHook (branch payloadUrl : string) (webhookEvents : list WebhookEvent)
    : ProjectHook :=
  let options := {| URL := payloadUrl; MergeRequestsEvents := false; PushEvents := false;
                    PushEventsBranchFilter := "" |} in
  foldl (λ options webhookEvent,
           if decide (webhookEvent = PrCreated ∨ webhookEvent = PrEdited)
           then {| URL := URL options; MergeRequestsEvents := true;
                   PushEvents := PushEvents options;
                   PushEventsBranchFilter := PushEventsBranchFilter options |}
           else if decide (webhookEvent = Push)
           then {| URL := URL options; MergeRequestsEvents := MergeRequestsEvents options;
                   PushEvents := true; PushEventsBranchFilter := branch |}
           else options)
        options webhookEvents.

Definition hook_options (token : string) (projectHook : ProjectHook) : ProjectHookOptions :=
  {| Opt_Token := token; Opt_URL := URL projectHook;
     Opt_MergeRequestsEvents := MergeRequestsEvents projectHook;
     Opt_PushEvents := PushEvents projectHook;
     Opt_PushEventsBranchFilter := PushEventsBranchFilter projectHook |}.

Definition CreateWebhook (client : GitLabClient) (owner repository branch payloadUrl : string)
    (webhookEvents : list WebhookEvent) : St Call (string * string * option error) :=
  token ← CreateToken;
  let projectHook := createProjectHook branch payloadUrl webhookEvents in
  let options := hook_options token projectHook in
  r ← perform (glClient client)
        (Projects_AddProjectHook (getProjectId owner repository) options);
  match r with
  | inr msg => mret ("", "", Some (PlatformError msg))
  | inl id => mret (FormatInt id, token, None)
  end.

Definition UpdateWebhook (client : GitLabClient)
    (owner repository branch payloadUrl token webhookId : string)
    (webhookEvents : list WebhookEvent) : St Call (option error) :=
  let projectHook := createProjectHook branch payloadUrl webhookEvents in
  let options := hook_options token projectHook in
  match strconv_Atoi webhookId with
  | None => mret (Some (NumError webhookId))
  | Some intWebhook =>
      r ← perform (glClient client)
            (Projects_EditProjectHook (getProjectId owner repository) intWebhook options);
      mret (err_of r)
  end.

Definition DeleteWebhook (client : GitLabClient) (owner repository webhookId : string)
    : St Call (option error) :=
  match strconv_Atoi webhookId with
  | None => mret (Some (NumError webhookId))
  | Some intWebhook =>
      r ← perform (glClient client)
            (Projects_DeleteProjectHook (getProjectId owner repository) intWebhook);
      mret (err_of r)
  end.

Definition getGitLabCommitState (commitState : CommitStatus) : string :=
  if decide (commitState = Pass) then "success"
  else if decide (commitState = Fail) then "failed"
  else if decide (commitState = Error) then "failed"
  else if decide (commitState = InProgress) then "running"
  else "".

Definition SetCommitStatus (client : GitLabClient) (commitStatus : CommitStatus)
    (owner repository ref title description detailsUrl : string) : St Call (option error) :=
  let options := {| State := getGitLabCommitState commitStatus; Ref := ref; Name := title;
                    Description := description; TargetURL := detailsUrl |} in
  r ← perform (glClient client)
        (Commits_SetCommitStatus (getProjectId owner repository) ref options);
  mret (err_of r).

Definition DownloadRepository (client : GitLabClient) (owner repository branch localPath : string)
    : St Call (option error) :=
  let format := "tar.gz" in
  let options := {| Format := format; SHA := branch |} in
  r ← perform (glClient client)
        (Repositories_Archive (getProjectId owner repository) options);
  match r with
  | inr msg => mret (Some (PlatformError msg))
  | inl response =>
      u ← perform (glClient client) (Untar localPath response);
      mret (err_of u)
  end.

Definition CreatePullRequest (client : GitLabClient)
    (owner repository sourceBranch targetBranch title description : string)
    : St Call (option error) :=
  let options := {| Title := title; MR_Description := description;
                    SourceBranch := sourceBranch; TargetBranch := targetBranch |} in
  r ← perform (glClient client)
        (MergeRequests_CreateMergeRequest (getProjectId owner repository) options);
  mret (err_of r).

End Adapter.
End GitLab.

(** * What a run is observed by *)

(** The page requests [p], [p + 1], ... ([k] of them) as they appear in the
    log. *)
Definition github_page_calls (p : Z) (k : nat) : list GitHub.Call :=
  (λ q, GitHub.call (GitHub.Repositories_List "" q)) <$> seqZ p (Z.of_nat k).

Definition gitlab_page_calls (group : string) (p : Z) (k : nat) : list GitLab.Call :=
  (λ q, GitLab.call (GitLab.Groups_ListGroupProjects group q)) <$> seqZ p (Z.of_nat k).

(** The page requests of a GitLab listing over [groups]: for each group in
    turn, its pages [1 .. count g]. *)
Definition gitlab_all_page_calls (groups : list string) (count : string → nat)
    : list GitLab.Call :=
  concat ((λ g, gitlab_page_calls g 1 (count g)) <$> groups).

(** [rejected err run]: the run returns the validation error and leaves the
    world as it was, so no call was made. *)
Definition rejected {C A} (err : A → option error) (run : St C A) : Prop :=
  ∀ w, err (run w).1 = Some ValidationError ∧ (run w).2 = w.

(** [forwarded err run first]: the run hands [first w] to the platform as
    its first call, and its error, if any, is not the validation error. *)
Definition forwarded {C A} (err : A → option error) (run : St C A)
    (first : World C → C) : Prop :=
  ∀ w, (∃ rest, log (run w).2 = log w ++ first w :: rest)
       ∧ err (run w).1 ≠ Some ValidationError.


(** The names listed under [owner] among [entries] (owner, name), in the
    order of [entries]; a map holds no key for an owner without entries. *)
Definition listed (owner : string) (entries : list (string * string)) : option (list string) :=
  match snd <$> filter (λ e, e.1 = owner) entries with
  | [] => None
  | names => Some names
  end.

Definition github_entries (pages : list (list GitHub.Repository)) : list (string * string) :=
  (λ r, (GitHub.Owner_Login r, GitHub.Name r)) <$> concat pages.

Definition gitlab_entries (groups : list string) (pages : string → list (list string))
    : list (string * string) :=
  concat ((λ g, pair g <$> concat (pages g)) <$> groups).

(** Appending one (owner, name) entry to the map, and a whole run of them. *)
Definition add_entry (m : gmap string (list string)) (e : string * string)
    : gmap string (list string) :=
  <[e.1 := default [] (m !! e.1) ++ [e.2]]> m.

Definition aggregate (entries : list (string * string)) : gmap string (list string) :=
  foldl add_entry ∅ entries.

(** No owner is listed with an empty sequence of names. *)
Definition no_empty_list (m : gmap string (list string)) : Prop :=
  ∀ owner names, m !! owner = Some names → names ≠ [].

(** Whether a string holds a slash. *)
Fixpoint has_slash (s : string) : bool :=
  match s with
  | EmptyString => false
  | String c s' => bool_decide (c = "/"%char) || has_slash s'
  end.

(** * A concrete setting to run the adapters in *)
Module Demo.

(** [CommitStatus] and [Permission] as integers counted from zero and
    [WebhookEvent] as a string; each has values beyond the named constants. *)
#[export] Instance vocabulary : Vocabulary.
Proof.
  refine {| CommitStatus := Z; Pass := 0; Fail := 1; Error := 2; InProgress := 3;
            WebhookEvent := string;
            PrCreated := "opened"; PrEdited := "synchronize"; Push := "push";
            Permission := Z; ReadWrite := 1 |}.
  - repeat constructor; rewrite ?elem_of_cons, elem_of_nil; intuition discriminate.
  - repeat constructor; rewrite ?elem_of_cons, elem_of_nil; intuition discriminate.
Defined.

(** The permission that is not [ReadWrite]. *)
Definition Read : @Permission vocabulary := 0.

(** A decimal numeral with an optional sign, within the 64-bit range. *)
Definition digit (c : Ascii.ascii) : option Z :=
  let n := Z.of_nat (Ascii.nat_of_ascii c) in
  if bool_decide (48 ≤ n ≤ 57) then Some (n - 48) else None.

Fixpoint digits (s : string) (acc : Z) : option Z :=
  match s with
  | EmptyString => Some acc
  | String c s' => d ← digit c; digits s' (10 * acc + d)
  end.

Definition parse_int (s : string) : option Z :=
  let unsigned (t : string) : option Z :=
    match t with EmptyString => None | _ => digits t 0 end in
  n ← match s with
      | String "-"%char t => Z.opp <$> unsigned t
      | String "+"%char t => unsigned t
      | _ => unsigned s
      end;
  if bool_decide (int_range n) then Some n else None.

Fixpoint all_spaces (s : string) : bool :=
  match s with
  | EmptyString => true
  | String c s' => bool_decide (c = " "%char) && all_spaces s'
  end.

(** [url.Parse] refuses a string that opens with a colon ("missing protocol
    scheme"); this stand-in accepts every other string as it is. *)
#[export] Instance externals : Externals :=
  {| URL := string;
     url_Parse := λ s, match s with String ":"%char _ => None | _ => Some s end;
     strconv_ParseInt := parse_int;
     strconv_Atoi := parse_int;
     token_at := λ n, "secret-" +:+ pretty n;
     isBlank := all_spaces |}.

Definition repo (owner name : string) : GitHub.Repository :=
  {| GitHub.Owner_Login := owner; GitHub.Name := name;
     GitHub.CloneURL := None; GitHub.SSHURL := None |}.

(** A GitHub platform that serves [pages] of repositories (page [p] of the
    listing is [pages !! p]) and reports [lastPage] with each, fails the
    listing of page [broken], answers a commit listing with [commits], and
    accepts every other call. *)
Definition github_server (pages : list (list GitHub.Repository)) (lastPage : Z)
    (broken : option Z) (commits : list GitHub.RepositoryCommit) : GitHub.Server :=
  λ T c hist r,
    match r in GitHub.Req T return result T with
    | GitHub.Zen => inl "Keep it logically awesome."
    | GitHub.Repositories_List _ p =>
        if bool_decide (broken = Some p) then inr "502 Bad Gateway"
        else inl (default [] (pages !! Z.to_nat p), {| GitHub.LastPage := lastPage |})
    | GitHub.Repositories_ListBranches _ _ => inl ["main"; "dev"]
    | GitHub.Repositories_CreateHook _ _ _ => inl 17
    | GitHub.Repositories_ListCommits _ _ _ => inl commits
    | GitHub.Repositories_CreateKey _ _ _ => inl ()
    | GitHub.Repositories_EditHook _ _ _ _ => inl ()
    | GitHub.Repositories_DeleteHook _ _ _ => inl ()
    | GitHub.Repositories_CreateStatus _ _ _ _ => inl ()
    | GitHub.PullRequests_Create _ _ _ => inl ()
    | GitHub.Repositories_GetArchiveLink _ _ _ => inl "https://codeload.example/archive"
    | GitHub.Http_Get _ => inl "archive-bytes"
    | GitHub.Untar _ _ => inl ()
    | _ => inr "404 Not Found"
    end.

Definition github_pages : list (list GitHub.Repository) :=
  [ [repo "jfrog" "repo-1"; repo "frogger" "pond"];
    [repo "jfrog" "repo-2"];
    [repo "frogger" "lily"; repo "jfrog" "repo-3"] ].

Definition github_client : GitHub.GitHubClient :=
  {| GitHub.vcsInfo := {| ApiEndpoint := "https://github.example/api/v3/";
                          Token := "abc123"; Username := "" |} |}.

(** What [buildGithubClient] makes of [github_client]. *)
Definition github_built : @GitHub.Client externals :=
  @GitHub.Build_Client externals (Some "abc123") (Some "https://github.example/api/v3/").

(** A GitLab platform over [groups]; [pages g] are the project pages of
    group [g], page [p] being [pages g !! (p - 1)], reported together with
    [totalPages g]; the listing of page [broken.2] of group [broken.1]
    fails.  [gitlab.NewClient] refuses a base URL that [url.Parse] refuses. *)
Definition gitlab_sdk_of (groups : list string) (pages : string → list (list string))
    (totalPages : string → Z) (broken : option (string * Z)) : GitLab.Sdk :=
  {| GitLab.Client := string;
     GitLab.NewClient := λ token base,
       match base with
       | None => inl "https://gitlab.com/api/v4/"
       | Some u => match url_Parse u with
                   | Some u' => inl u'
                   | None => inr "parse: missing protocol scheme"
                   end
       end;
     GitLab.serve := λ T c hist r,
       match r in GitLab.Req T return result T with
       | GitLab.Projects_ListProjects => inl ()
       | GitLab.Groups_ListGroups => inl groups
       | GitLab.Groups_ListGroupProjects g p =>
           if bool_decide (broken = Some (g, p)) then inr "502 Bad Gateway"
           else inl (default [] (pages g !! Z.to_nat (p - 1)),
                     {| GitLab.TotalPages := totalPages g |})
       | GitLab.Branches_ListBranches _ => inl ["main"]
       | GitLab.Projects_AddProjectHook _ _ => inl 23
       | GitLab.Repositories_Archive _ _ => inl "archive-bytes"
       | _ => inl ()
       end |}.

Definition gitlab_pages (g : string) : list (list string) :=
  if bool_decide (g = "jfrog") then [["repo-1"; "repo-2"]; ["repo-3"]]
  else if bool_decide (g = "frogger") then [["pond"]]
  else [].

Definition gitlab_total (g : string) : Z := Z.of_nat (length (gitlab_pages g)).

Definition w0 {C} : World C := mkWorld [] 0.

Definition commit_a : GitHub.RepositoryCommit :=
  {| GitHub.RC_SHA := Some "ff4a54b5";
     GitHub.RC_Commit := Some
       {| GitHub.Commit_SHA := None;
          GitHub.Author := Some {| GitHub.Date := Some 1638271800;
                                   GitHub.Author_Name := Some "Bob" |};
          GitHub.Committer := Some {| GitHub.Date := Some 1638271854;
                                      GitHub.Author_Name := None |};
          GitHub.Commit_Message := Some "Fix the pond" |};
     GitHub.RC_URL := Some "https://api.github.example/commits/ff4a54b5";
     GitHub.Parents := [Some {| GitHub.Commit_SHA := Some "0c1d2e3f";
                                GitHub.Author := None; GitHub.Committer := None;
                                GitHub.Commit_Message := None |}; None] |}.

(** Three pages, all served, an empty commit list. *)
Definition gh_ok : GitHub.Server := github_server github_pages 3 None [].
(** The same with the request of page 1 failing. *)
Definition gh_broken : GitHub.Server := github_server github_pages 3 (Some 1) [].
(** No page indicator in the answers, one commit on every branch. *)
Definition gh_single : GitHub.Server := github_server github_pages 0 None [commit_a].

Definition gl_ok : GitLab.Sdk :=
  gitlab_sdk_of ["jfrog"; "frogger"] gitlab_pages gitlab_total None.
Definition gl_broken : GitLab.Sdk :=
  gitlab_sdk_of ["jfrog"; "frogger"; "toad"] gitlab_pages gitlab_total (Some ("frogger", 1)).
Definition gl_fixed : GitLab.Sdk :=
  gitlab_sdk_of ["jfrog"; "frogger"] gitlab_pages (λ _, 2) None.

(** A GitHub platform that numbers its pages from 1, the way
    [GetLatestCommit] asks for its first page: the request of page [p >= 1]
    is answered with [pages !! (p - 1)], a request of page 0 with the first
    page, and every answer but that of the last page names the number of the
    last page. *)
Definition github_one_based (pages : list (list GitHub.Repository)) : GitHub.Server :=
  λ T c hist r,
    match r in GitHub.Req T return result T with
    | GitHub.Repositories_List _ p =>
        let number := Z.max p 1 in
        inl (default [] (pages !! Z.to_nat (number - 1)),
             {| GitHub.LastPage :=
                  if bool_decide (number < Z.of_nat (length pages))
                  then Z.of_nat (length pages) else 0 |})
    | _ => inr "404 Not Found"
    end.

Definition gh_one_based : GitHub.Server := github_one_based github_pages.

(** Platforms on which every page announces a further one. *)
Definition gh_endless : GitHub.Server :=
  λ T c hist r,
    match r in GitHub.Req T return result T with
    | GitHub.Repositories_List _ p => inl ([repo "jfrog" "repo"], {| GitHub.LastPage := p + 2 |})
    | _ => inr "404 Not Found"
    end.

Definition gl_endless : GitLab.Sdk :=
  {| GitLab.Client := string;
     GitLab.NewClient := λ token base, inl "https://gitlab.com/api/v4/";
     GitLab.serve := λ T c hist r,
       match r in GitLab.Req T return result T with
       | GitLab.Groups_ListGroups => inl ["jfrog"; "frogger"]
       | GitLab.Groups_ListGroupProjects g p =>
           inl (["repo"], {| GitLab.TotalPages := p + 1 |})
       | _ => inr "404 Not Found"
       end |}.

Definition gl_endless_client : @GitLab.GitLabClient gl_endless :=
  @GitLab.Build_GitLabClient gl_endless "https://gitlab.com/api/v4/".


(** The clients [NewGitLabClient] builds from [gitlab_info] on them. *)
Definition gl_ok_client : @GitLab.GitLabClient gl_ok :=
  @GitLab.Build_GitLabClient gl_ok "https://gitlab.example/api/v4/".
Definition gl_broken_client : @GitLab.GitLabClient gl_broken :=
  @GitLab.Build_GitLabClient gl_broken "https://gitlab.example/api/v4/".
Definition gl_fixed_client : @GitLab.GitLabClient gl_fixed :=
  @GitLab.Build_GitLabClient gl_fixed "https://gitlab.example/api/v4/".


End Demo.

(** * Properties *)

(** ** Go integers *)

Lemma int_wrap_small (z : Z) : int_range z → int_wrap z = z.
Proof.
  unfold int_range, int_wrap. intros Hz.
  rewrite Z.mod_small by lia. lia.
Qed.

Lemma int_succ_small (n : Z) : - 2 ^ 63 ≤ n + 1 < 2 ^ 63 → int_succ n = n + 1.
Proof. intros Hn. unfold int_succ. by apply int_wrap_small. Qed.

(** ** Enumeration mappings *)

Section Mappings.
Context {vocab : Vocabulary}.

Lemma CommitStatus_distinct :
  Pass ≠ Fail ∧ Pass ≠ Error ∧ Pass ≠ InProgress ∧
  Fail ≠ Error ∧ Fail ≠ InProgress ∧ Error ≠ InProgress.
Proof.
  pose proof CommitStatus_cases as Hnd.
  repeat match goal with
         | Hn : NoDup (_ :: _) |- _ => apply NoDup_cons in Hn; destruct Hn
         end.
  set_solver.
Qed.

Lemma WebhookEvent_distinct :
  PrCreated ≠ PrEdited ∧ PrCreated ≠ Push ∧ PrEdited ≠ Push.
Proof.
  pose proof WebhookEvent_cases as Hnd.
  repeat match goal with
         | Hn : NoDup (_ :: _) |- _ => apply NoDup_cons in Hn; destruct Hn
         end.
  set_solver.
Qed.

(** C1. On the four values of [CommitStatus] the GitHub mapping gives
    "success", "failure", "error", "pending" and the GitLab mapping gives
    "success", "failed", "failed", "running"; on none of the four does
    either mapping give the empty string of the unmapped default. *)
Theorem commit_state_mapping :
  (GitHub.getGitHubCommitState Pass = "success" ∧
   GitHub.getGitHubCommitState Fail = "failure" ∧
   GitHub.getGitHubCommitState Error = "error" ∧
   GitHub.getGitHubCommitState InProgress = "pending") ∧
  (GitLab.getGitLabCommitState Pass = "success" ∧
   GitLab.getGitLabCommitState Fail = "failed" ∧
   GitLab.getGitLabCommitState Error = "failed" ∧
   GitLab.getGitLabCommitState InProgress = "running") ∧
  Forall (λ s, GitHub.getGitHubCommitState s ≠ "" ∧ GitLab.getGitLabCommitState s ≠ "")
    [Pass; Fail; Error; InProgress].
Proof.
  destruct CommitStatus_distinct as (HPF & HPE & HPI & HFE & HFI & HEI).
  assert (Hgh : GitHub.getGitHubCommitState Pass = "success" ∧
                GitHub.getGitHubCommitState Fail = "failure" ∧
                GitHub.getGitHubCommitState Error = "error" ∧
                GitHub.getGitHubCommitState InProgress = "pending").
  { unfold GitHub.getGitHubCommitState. repeat split; repeat case_decide; congruence. }
  assert (Hgl : GitLab.getGitLabCommitState Pass = "success" ∧
                GitLab.getGitLabCommitState Fail = "failed" ∧
                GitLab.getGitLabCommitState Error = "failed" ∧
                GitLab.getGitLabCommitState InProgress = "running").
  { unfold GitLab.getGitLabCommitState. repeat split; repeat case_decide; congruence. }
  split; [exact Hgh|]. split; [exact Hgl|].
  destruct Hgh as (g1 & g2 & g3 & g4), Hgl as (l1 & l2 & l3 & l4).
  repeat apply Forall_cons_2; [| | | | apply Forall_nil_2].
  - by rewrite g1, l1.
  - by rewrite g2, l2.
  - by rewrite g3, l3.
  - by rewrite g4, l4.
Qed.

Lemma foldl_skip {A B} (f : A → B → A) (x : B) (before after : list B) :
  (∀ a, f a x = a) → ∀ a, foldl f a (before ++ x :: after) = foldl f a (before ++ after).
Proof. intros Hx a. rewrite !foldl_app. cbn [foldl]. by rewrite Hx. Qed.

(** C4. The mappings never fail, and a value outside the named constants
    maps to nothing: the commit-state mappings give the empty string, the
    GitHub event mapping adds no event name for it, and the GitLab hook
    built from the events is the hook built without it. *)
Theorem unmapped_values_map_to_nothing :
  (∀ s : CommitStatus, s ∉ [Pass; Fail; Error; InProgress] →
     GitHub.getGitHubCommitState s = "" ∧ GitLab.getGitLabCommitState s = "") ∧
  (∀ e : WebhookEvent, e ∉ [PrCreated; PrEdited; Push] →
     GitHub.getGitHubWebhookEvents [e] = [] ∧
     (∀ before after,
        GitHub.getGitHubWebhookEvents (before ++ e :: after)
        = GitHub.getGitHubWebhookEvents (before ++ after)) ∧
     (∀ branch payloadUrl before after,
        GitLab.createProjectHook branch payloadUrl (before ++ e :: after)
        = GitLab.createProjectHook branch payloadUrl (before ++ after))).
Proof.
  split.
  - intros s Hs. rewrite !not_elem_of_cons in Hs. destruct Hs as (? & ? & ? & ? & _).
    unfold GitHub.getGitHubCommitState, GitLab.getGitLabCommitState.
    by repeat case_decide.
  - intros e He. rewrite !not_elem_of_cons in He. destruct He as (? & ? & ? & _).
    repeat apply conj.
    + unfold GitHub.getGitHubWebhookEvents. cbn [foldl].
      repeat case_decide; [tauto | done | done].
    + intros before after. unfold GitHub.getGitHubWebhookEvents.
      apply foldl_skip. intros a. repeat case_decide; [tauto | done | done].
    + intros branch payloadUrl before after. unfold GitLab.createProjectHook.
      apply foldl_skip. intros a. repeat case_decide; [tauto | done | done].
Qed.

End Mappings.

(** ** Running the state-passing code *)

Ltac st_unfold :=
  unfold mbind, St_bind, mret, St_ret, GitHub.perform, GitLab.perform, CreateToken in *.

Lemma world_eta {C} (w : World C) : mkWorld (log w ++ []) (seed w) = w.
Proof. destruct w; simpl. by rewrite app_nil_r. Qed.

(** ** Aggregating entries into the result map *)

Lemma foldl_add_entry_lookup (entries : list (string * string)) :
  ∀ (m : gmap string (list string)) (owner : string),
  foldl add_entry m entries !! owner
  = match snd <$> filter (λ e, e.1 = owner) entries with
    | [] => m !! owner
    | names => Some (default [] (m !! owner) ++ names)
    end.
Proof.
  induction entries as [|[o n] entries IH]; intros m owner; [done|].
  cbn [foldl]. rewrite IH.
  destruct (decide (o = owner)) as [->|Hne].
  - assert (Hm : add_entry m (owner, n) !! owner = Some (default [] (m !! owner) ++ [n]))
      by apply lookup_insert_eq.
    rewrite filter_cons_True by done. rewrite Hm, fmap_cons. simpl.
    destruct (snd <$> filter (λ e, e.1 = owner) entries) as [|n' names].
    + done.
    + by rewrite <- app_assoc.
  - assert (Hm : add_entry m (o, n) !! owner = m !! owner)
      by by apply lookup_insert_ne.
    rewrite filter_cons_False by done. by rewrite Hm.
Qed.

Lemma aggregate_lookup (entries : list (string * string)) (owner : string) :
  aggregate entries !! owner = listed owner entries.
Proof.
  unfold aggregate, listed. rewrite foldl_add_entry_lookup, lookup_empty.
  by destruct (snd <$> filter (λ e, e.1 = owner) entries).
Qed.

Lemma foldl_add_repo (repos : list GitHub.Repository) (m : gmap string (list string)) :
  foldl GitHub.add_repo m repos
  = foldl add_entry m ((λ r, (GitHub.Owner_Login r, GitHub.Name r)) <$> repos).
Proof. by rewrite foldl_fmap. Qed.

Lemma foldl_add_project (group : string) (projects : list string)
    (m : gmap string (list string)) :
  foldl (GitLab.add_project group) m projects = foldl add_entry m (pair group <$> projects).
Proof. by rewrite foldl_fmap. Qed.

(** The pages of a list, read back by page number from [first]. *)
Lemma pages_by_number {A} (pages : list (list A)) (first : Z) :
  (λ q, default [] (pages !! Z.to_nat (q - first))) <$> seqZ first (Z.of_nat (length pages))
  = pages.
Proof.
  apply list_eq. intros i. rewrite list_lookup_fmap.
  destruct (decide (i < length pages)%nat) as [Hlt|Hge].
  - rewrite lookup_seqZ_lt by lia. cbn [fmap option_fmap option_map].
    replace (Z.to_nat (first + Z.of_nat i - first)) with i by lia.
    destruct (lookup_lt_is_Some_2 pages i Hlt) as [pg ->]. done.
  - rewrite lookup_seqZ_ge by lia. by rewrite lookup_ge_None_2 by lia.
Qed.

(** ** The listing loops *)

Section GitHubListing.
Context {vocab : Vocabulary} {ext : Externals} {github : GitHub.Server}.

(** [k] pages in a row that are served and do not meet the stop test. *)
Lemma github_loop_prefix (c : GitHub.Client) (pg : Z → list GitHub.Repository) (lp : Z → Z)
    (k : nat) : ∀ (p : Z) results w fuel,
  0 ≤ p → p + Z.of_nat k < 2 ^ 63 →
  (∀ q hist, p ≤ q < p + Z.of_nat k →
     GitHub.serve _ c hist (GitHub.Repositories_List "" q)
     = inl (pg q, {| GitHub.LastPage := lp q |})) →
  (∀ q, p ≤ q < p + Z.of_nat k → q + 1 < lp q) →
  GitHub.ListRepositories_loop (k + fuel) c p results w
  = GitHub.ListRepositories_loop fuel c (p + Z.of_nat k)
      (foldl GitHub.add_repo results (concat (pg <$> seqZ p (Z.of_nat k))))
      (mkWorld (log w ++ github_page_calls p k) (seed w)).
Proof.
  induction k as [|k IH]; intros p results w fuel Hp Hk Hserve Hgo.
  - unfold github_page_calls. simpl. rewrite Z.add_0_r. by rewrite world_eta.
  - change (S k + fuel)%nat with (S (k + fuel)). cbn [GitHub.ListRepositories_loop].
    st_unfold. rewrite Hserve by lia.
    assert (Hs : int_succ p = p + 1) by (apply int_succ_small; lia).
    rewrite Hs.
    cbn [GitHub.LastPage].
    destruct (Z.geb_spec (p + 1) (lp p)) as [Hge|_]; [specialize (Hgo p); lia|].
    rewrite IH; [| lia | lia | intros; apply Hserve; lia | intros; apply Hgo; lia].
    unfold github_page_calls.
    rewrite (seqZ_cons p (Z.of_nat (S k))) by lia.
    replace (Z.pred (Z.of_nat (S k))) with (Z.of_nat k) by lia.
    replace (Z.succ p) with (p + 1) by lia.
    rewrite !fmap_cons. cbn [concat log seed]. rewrite foldl_app.
    rewrite <- app_assoc. cbn [app].
    by replace (p + 1 + Z.of_nat k) with (p + Z.of_nat (S k)) by lia.
Qed.

(** The same when only the page indicator of each answer is known. *)
Lemma github_loop_prefix_any (c : GitHub.Client) (lp : Z → Z) (k : nat) :
  ∀ (p : Z) results w fuel,
  0 ≤ p → p + Z.of_nat k < 2 ^ 63 →
  (∀ q hist, p ≤ q < p + Z.of_nat k →
     ∃ repos, GitHub.serve _ c hist (GitHub.Repositories_List "" q)
              = inl (repos, {| GitHub.LastPage := lp q |})) →
  (∀ q, p ≤ q < p + Z.of_nat k → q + 1 < lp q) →
  ∃ results',
    GitHub.ListRepositories_loop (k + fuel) c p results w
    = GitHub.ListRepositories_loop fuel c (p + Z.of_nat k) results'
        (mkWorld (log w ++ github_page_calls p k) (seed w)).
Proof.
  induction k as [|k IH]; intros p results w fuel Hp Hk Hserve Hgo.
  - exists results. unfold github_page_calls. simpl. rewrite Z.add_0_r. by rewrite world_eta.
  - change (S k + fuel)%nat with (S (k + fuel)). cbn [GitHub.ListRepositories_loop].
    st_unfold. destruct (Hserve p (log w)) as [repos ->]; [lia|].
    assert (Hs : int_succ p = p + 1) by (apply int_succ_small; lia).
    rewrite Hs. cbn [GitHub.LastPage].
    destruct (Z.geb_spec (p + 1) (lp p)) as [Hge|_]; [specialize (Hgo p); lia|].
    edestruct (IH (p + 1)) as [results' ->];
      [lia | | intros; apply Hserve; lia | intros; apply Hgo; lia |]; [lia|].
    exists results'. unfold github_page_calls.
    rewrite (seqZ_cons p (Z.of_nat (S k))) by lia.
    replace (Z.pred (Z.of_nat (S k))) with (Z.of_nat k) by lia.
    replace (Z.succ p) with (p + 1) by lia.
    rewrite !fmap_cons. cbn [log seed].
    rewrite <- app_assoc. cbn [app].
    by replace (p + 1 + Z.of_nat k) with (p + Z.of_nat (S k)) by lia.
Qed.

(** One iteration that is served and meets the stop test. *)
Lemma github_loop_stop (c : GitHub.Client) repos (L p : Z) results w fuel :
  GitHub.serve _ c (log w) (GitHub.Repositories_List "" p)
    = inl (repos, {| GitHub.LastPage := L |}) →
  L ≤ int_succ p →
  GitHub.ListRepositories_loop (S fuel) c p results w
  = (Some (Some (foldl GitHub.add_repo results repos), None),
     mkWorld (log w ++ [GitHub.call (GitHub.Repositories_List "" p)]) (seed w)).
Proof.
  intros Hserve HL. cbn [GitHub.ListRepositories_loop]. st_unfold.
  rewrite Hserve. cbn [GitHub.LastPage].
  by destruct (Z.geb_spec (int_succ p) L) as [_|Hlt]; [|lia].
Qed.

(** One iteration whose page request fails. *)
Lemma github_loop_fail (c : GitHub.Client) msg (p : Z) results w fuel :
  GitHub.serve _ c (log w) (GitHub.Repositories_List "" p) = inr msg →
  GitHub.ListRepositories_loop (S fuel) c p results w
  = (Some (None, Some (PlatformError msg)),
     mkWorld (log w ++ [GitHub.call (GitHub.Repositories_List "" p)]) (seed w)).
Proof.
  intros Hserve. cbn [GitHub.ListRepositories_loop]. st_unfold. by rewrite Hserve.
Qed.

Lemma github_page_calls_S (p : Z) (k : nat) :
  github_page_calls p (S k)
  = github_page_calls p k ++ [GitHub.call (GitHub.Repositories_List "" (p + Z.of_nat k))].
Proof. unfold github_page_calls. by rewrite seqZ_S, fmap_app. Qed.

Lemma github_page_calls_length (p : Z) (k : nat) : length (github_page_calls p k) = k.
Proof. unfold github_page_calls. rewrite length_fmap, length_seqZ. lia. Qed.

(** A platform whose answers to the requests of the pages [0 .. n - 1] all
    name [n] as the last page: these [n] requests are made, in order, and
    what was answered is returned in request order.  [pg q] is the page the
    platform answers to the request of page [q]. *)
Lemma github_listing_reads (client : GitHub.GitHubClient) (c : GitHub.Client)
    (pg : Z → list GitHub.Repository) (n : nat) w fuel :
  GitHub.buildGithubClient client = inl c →
  (1 ≤ n)%nat →
  Z.of_nat n < 2 ^ 63 →
  (∀ q hist, 0 ≤ q < Z.of_nat n →
     GitHub.serve _ c hist (GitHub.Repositories_List "" q)
     = inl (pg q, {| GitHub.LastPage := Z.of_nat n |})) →
  (n ≤ fuel)%nat →
  GitHub.ListRepositories fuel client w
  = (Some (Some (aggregate (github_entries (pg <$> seqZ 0 (Z.of_nat n)))), None),
     mkWorld (log w ++ github_page_calls 0 n) (seed w)).
Proof.
  intros Hc Hn Hlen Hpg Hfuel. unfold GitHub.ListRepositories. rewrite Hc.
  destruct n as [|n]; [lia|].
  replace fuel with (n + S (fuel - S n))%nat by lia.
  rewrite (github_loop_prefix c pg (λ _, Z.of_nat (S n)) n 0);
    [| lia | lia | intros; apply Hpg; lia | intros; lia].
  rewrite (github_loop_stop c (pg (0 + Z.of_nat n)) (Z.of_nat (S n)));
    [| apply Hpg; lia | rewrite int_succ_small; lia ].
  cbn [log seed]. rewrite <- app_assoc, <- github_page_calls_S.
  do 3 f_equal.
  rewrite <- foldl_app.
  replace (concat (pg <$> seqZ 0 (Z.of_nat n)) ++ pg (0 + Z.of_nat n))
    with (concat (pg <$> seqZ 0 (Z.of_nat (S n)))).
  2:{ rewrite seqZ_S, fmap_app, concat_app. simpl. by rewrite app_nil_r. }
  by rewrite foldl_add_repo.
Qed.

(** The pages [0 .. length pages - 1] are served with more announced, and
    the request of the next one fails: the error comes back with a nil map. *)
Lemma github_listing_aborts (client : GitHub.GitHubClient) (c : GitHub.Client)
    (pages : list (list GitHub.Repository)) (lastPage : Z) (msg : string) w fuel :
  GitHub.buildGithubClient client = inl c →
  Z.of_nat (length pages) < lastPage →
  Z.of_nat (length pages) < 2 ^ 63 →
  (∀ (i : nat) pg hist, pages !! i = Some pg →
     GitHub.serve _ c hist (GitHub.Repositories_List "" (Z.of_nat i))
     = inl (pg, {| GitHub.LastPage := lastPage |})) →
  (∀ hist, GitHub.serve _ c hist
             (GitHub.Repositories_List "" (Z.of_nat (length pages))) = inr msg) →
  (length pages < fuel)%nat →
  GitHub.ListRepositories fuel client w
  = (Some (None, Some (PlatformError msg)),
     mkWorld (log w ++ github_page_calls 0 (S (length pages))) (seed w)).
Proof.
  intros Hc Hmore Hlen Hserve Hfail Hfuel. unfold GitHub.ListRepositories. rewrite Hc.
  set (n := length pages) in *.
  replace fuel with (n + S (fuel - S n))%nat by lia.
  set (pg := λ q : Z, default [] (pages !! Z.to_nat (q - 0))).
  rewrite (github_loop_prefix c pg (λ _, lastPage) n 0); [| lia | lia | | intros; lia].
  - rewrite (github_loop_fail c msg); [| apply Hfail].
    cbn [log seed]. by rewrite <- app_assoc, <- github_page_calls_S.
  - intros q hist Hq. unfold pg.
    destruct (lookup_lt_is_Some_2 pages (Z.to_nat (q - 0))) as [x Hx]; [lia|].
    rewrite Hx. change (default [] (Some x)) with x.
    rewrite <- (Hserve (Z.to_nat (q - 0)) x hist Hx). do 2 f_equal. lia.
Qed.

(** Every answer names the same last page [L]: the loop ends after
    [max 1 L] requests. *)
Lemma github_listing_fixed_last_page (client : GitHub.GitHubClient) (c : GitHub.Client)
    (L : Z) w fuel :
  GitHub.buildGithubClient client = inl c →
  int_range L →
  (∀ q hist, ∃ repos, GitHub.serve _ c hist (GitHub.Repositories_List "" q)
                      = inl (repos, {| GitHub.LastPage := L |})) →
  (Z.to_nat (Z.max 1 L) ≤ fuel)%nat →
  ∃ m, GitHub.ListRepositories fuel client w
       = (Some (Some m, None),
          mkWorld (log w ++ github_page_calls 0 (Z.to_nat (Z.max 1 L))) (seed w)).
Proof.
  intros Hc [HL1 HL2] Hserve Hfuel. unfold GitHub.ListRepositories. rewrite Hc.
  destruct (Z.to_nat (Z.max 1 L)) as [|k] eqn:HN; [lia|].
  replace fuel with (k + S (fuel - S k))%nat by lia.
  destruct (github_loop_prefix_any c (λ _, L) k 0 ∅ w (S (fuel - S k))) as [m ->];
    [lia | lia | intros; apply Hserve | intros; lia |].
  destruct (Hserve (0 + Z.of_nat k) (log w ++ github_page_calls 0 k)) as [repos Hrepos].
  rewrite (github_loop_stop c repos L); [| exact Hrepos | rewrite int_succ_small; lia ].
  cbn [log seed]. rewrite <- app_assoc, <- github_page_calls_S. by eexists.
Qed.

End GitHubListing.

Section GitLabListing.
Context {vocab : Vocabulary} {ext : Externals} {gitlab : GitLab.Sdk}.

Lemma gitlab_page_calls_S (g : string) (p : Z) (k : nat) :
  gitlab_page_calls g p (S k)
  = gitlab_page_calls g p k
    ++ [GitLab.call (GitLab.Groups_ListGroupProjects g (p + Z.of_nat k))].
Proof. unfold gitlab_page_calls. by rewrite seqZ_S, fmap_app. Qed.

Lemma gitlab_page_calls_cons (g : string) (p : Z) (k : nat) :
  gitlab_page_calls g p (S k)
  = GitLab.call (GitLab.Groups_ListGroupProjects g p) :: gitlab_page_calls g (p + 1) k.
Proof.
  unfold gitlab_page_calls. rewrite (seqZ_cons p (Z.of_nat (S k))) by lia.
  replace (Z.pred (Z.of_nat (S k))) with (Z.of_nat k) by lia.
  by replace (Z.succ p) with (p + 1) by lia.
Qed.

Lemma gitlab_page_calls_length (g : string) (p : Z) (k : nat) :
  length (gitlab_page_calls g p k) = k.
Proof. unfold gitlab_page_calls. rewrite length_fmap, length_seqZ. lia. Qed.

(** [k] project pages of one group in a row that are served and do not
    meet the stop test; only the page indicator of each answer is fixed. *)
Lemma gitlab_loop_prefix_any (client : GitLab.GitLabClient) (g : string) (tp : Z → Z)
    (k : nat) : ∀ (p : Z) results w fuel,
  0 ≤ p → p + Z.of_nat k < 2 ^ 63 →
  (∀ q hist, p ≤ q < p + Z.of_nat k →
     ∃ projects, GitLab.serve _ (GitLab.glClient client) hist
                   (GitLab.Groups_ListGroupProjects g q)
                 = inl (projects, {| GitLab.TotalPages := tp q |})) →
  (∀ q, p ≤ q < p + Z.of_nat k → q < tp q) →
  ∃ results',
    GitLab.ListGroupProjects_loop (k + fuel) client g p results w
    = GitLab.ListGroupProjects_loop fuel client g (p + Z.of_nat k) results'
        (mkWorld (log w ++ gitlab_page_calls g p k) (seed w)).
Proof.
  induction k as [|k IH]; intros p results w fuel Hp Hk Hserve Hgo.
  - exists results. unfold gitlab_page_calls. simpl. rewrite Z.add_0_r. by rewrite world_eta.
  - change (S k + fuel)%nat with (S (k + fuel)). cbn [GitLab.ListGroupProjects_loop].
    st_unfold. destruct (Hserve p (log w)) as [projects ->]; [lia|].
    cbn [GitLab.TotalPages].
    destruct (Z.geb_spec p (tp p)) as [Hge|_]; [specialize (Hgo p); lia|].
    rewrite int_succ_small by lia.
    edestruct (IH (p + 1)) as [results' ->];
      [lia | | intros; apply Hserve; lia | intros; apply Hgo; lia |]; [lia|].
    exists results'. rewrite gitlab_page_calls_cons. cbn [log seed].
    rewrite <- app_assoc. cbn [app].
    by replace (p + 1 + Z.of_nat k) with (p + Z.of_nat (S k)) by lia.
Qed.

(** The same with the content of each page known. *)
Lemma gitlab_loop_prefix (client : GitLab.GitLabClient) (g : string)
    (pg : Z → list string) (tp : Z → Z) (k : nat) : ∀ (p : Z) results w fuel,
  0 ≤ p → p + Z.of_nat k < 2 ^ 63 →
  (∀ q hist, p ≤ q < p + Z.of_nat k →
     GitLab.serve _ (GitLab.glClient client) hist (GitLab.Groups_ListGroupProjects g q)
     = inl (pg q, {| GitLab.TotalPages := tp q |})) →
  (∀ q, p ≤ q < p + Z.of_nat k → q < tp q) →
  GitLab.ListGroupProjects_loop (k + fuel) client g p results w
  = GitLab.ListGroupProjects_loop fuel client g (p + Z.of_nat k)
      (foldl (GitLab.add_project g) results (concat (pg <$> seqZ p (Z.of_nat k))))
      (mkWorld (log w ++ gitlab_page_calls g p k) (seed w)).
Proof.
  induction k as [|k IH]; intros p results w fuel Hp Hk Hserve Hgo.
  - unfold gitlab_page_calls. simpl. rewrite Z.add_0_r. by rewrite world_eta.
  - change (S k + fuel)%nat with (S (k + fuel)). cbn [GitLab.ListGroupProjects_loop].
    st_unfold. rewrite Hserve by lia. cbn [GitLab.TotalPages].
    destruct (Z.geb_spec p (tp p)) as [Hge|_]; [specialize (Hgo p); lia|].
    rewrite int_succ_small by lia.
    rewrite IH; [| lia | lia | intros; apply Hserve; lia | intros; apply Hgo; lia].
    rewrite gitlab_page_calls_cons. cbn [log seed].
    rewrite (seqZ_cons p (Z.of_nat (S k))) by lia.
    replace (Z.pred (Z.of_nat (S k))) with (Z.of_nat k) by lia.
    replace (Z.succ p) with (p + 1) by lia.
    rewrite fmap_cons. cbn [concat]. rewrite foldl_app.
    rewrite <- app_assoc. cbn [app].
    by replace (p + 1 + Z.of_nat k) with (p + Z.of_nat (S k)) by lia.
Qed.

Lemma gitlab_loop_stop (client : GitLab.GitLabClient) (g : string) projects
    (T p : Z) results w fuel :
  GitLab.serve _ (GitLab.glClient client) (log w) (GitLab.Groups_ListGroupProjects g p)
    = inl (projects, {| GitLab.TotalPages := T |}) →
  T ≤ p →
  GitLab.ListGroupProjects_loop (S fuel) client g p results w
  = (Some (inl (foldl (GitLab.add_project g) results projects)),
     mkWorld (log w ++ [GitLab.call (GitLab.Groups_ListGroupProjects g p)]) (seed w)).
Proof.
  intros Hserve HT. cbn [GitLab.ListGroupProjects_loop]. st_unfold.
  rewrite Hserve. cbn [GitLab.TotalPages].
  by destruct (Z.geb_spec p T) as [_|Hlt]; [|lia].
Qed.

Lemma gitlab_loop_fail (client : GitLab.GitLabClient) (g : string) msg
    (p : Z) results w fuel :
  GitLab.serve _ (GitLab.glClient client) (log w) (GitLab.Groups_ListGroupProjects g p)
    = inr msg →
  GitLab.ListGroupProjects_loop (S fuel) client g p results w
  = (Some (inr (PlatformError msg)),
     mkWorld (log w ++ [GitLab.call (GitLab.Groups_ListGroupProjects g p)]) (seed w)).
Proof.
  intros Hserve. cbn [GitLab.ListGroupProjects_loop]. st_unfold. by rewrite Hserve.
Qed.

(** One group whose [length pages] pages are all served, each with their
    number as the total. *)
Lemma gitlab_group_drains (client : GitLab.GitLabClient) (g : string)
    (pages : list (list string)) results w fuel :
  pages ≠ [] →
  Z.of_nat (length pages) < 2 ^ 63 →
  (∀ (i : nat) pg hist, pages !! i = Some pg →
     GitLab.serve _ (GitLab.glClient client) hist
       (GitLab.Groups_ListGroupProjects g (Z.of_nat i + 1))
     = inl (pg, {| GitLab.TotalPages := Z.of_nat (length pages) |})) →
  (length pages ≤ fuel)%nat →
  GitLab.ListGroupProjects_loop fuel client g 1 results w
  = (Some (inl (foldl add_entry results (pair g <$> concat pages))),
     mkWorld (log w ++ gitlab_page_calls g 1 (length pages)) (seed w)).
Proof.
  intros Hne Hlen Hserve Hfuel.
  destruct (length pages) as [|n] eqn:HN; [by destruct pages|].
  rewrite ?HN in Hserve.
  replace fuel with (n + S (fuel - S n))%nat by lia.
  set (pg := λ q : Z, default [] (pages !! Z.to_nat (q - 1))).
  assert (Hpg : ∀ q hist, 1 ≤ q < 1 + Z.of_nat (S n) →
            GitLab.serve _ (GitLab.glClient client) hist
              (GitLab.Groups_ListGroupProjects g q)
            = inl (pg q, {| GitLab.TotalPages := Z.of_nat (S n) |})).
  { intros q hist Hq. unfold pg.
    destruct (lookup_lt_is_Some_2 pages (Z.to_nat (q - 1))) as [x Hx]; [lia|].
    rewrite Hx. change (default [] (Some x)) with x.
    rewrite <- (Hserve (Z.to_nat (q - 1)) x hist Hx). do 2 f_equal. lia. }
  rewrite (gitlab_loop_prefix client g pg (λ _, Z.of_nat (S n)) n 1);
    [| lia | lia | intros; apply Hpg; lia | intros; lia].
  rewrite (gitlab_loop_stop client g (pg (1 + Z.of_nat n)) (Z.of_nat (S n)));
    [| apply Hpg; lia | lia ].
  cbn [log seed]. rewrite <- app_assoc, <- gitlab_page_calls_S.
  do 3 f_equal.
  rewrite <- foldl_app.
  replace (concat (pg <$> seqZ 1 (Z.of_nat n)) ++ pg (1 + Z.of_nat n))
    with (concat (pg <$> seqZ 1 (Z.of_nat (S n)))).
  2:{ rewrite seqZ_S, fmap_app, concat_app. simpl. by rewrite app_nil_r. }
  unfold pg. rewrite <- HN, pages_by_number.
  by rewrite foldl_add_project.
Qed.

(** One group of which [length pages] pages are served with more announced
    and the next request fails. *)
Lemma gitlab_group_aborts (client : GitLab.GitLabClient) (g : string)
    (pages : list (list string)) (totalPages : Z) (msg : string) results w fuel :
  Z.of_nat (length pages) < totalPages →
  Z.of_nat (length pages) + 1 < 2 ^ 63 →
  (∀ (i : nat) pg hist, pages !! i = Some pg →
     GitLab.serve _ (GitLab.glClient client) hist
       (GitLab.Groups_ListGroupProjects g (Z.of_nat i + 1))
     = inl (pg, {| GitLab.TotalPages := totalPages |})) →
  (∀ hist, GitLab.serve _ (GitLab.glClient client) hist
             (GitLab.Groups_ListGroupProjects g (Z.of_nat (length pages) + 1)) = inr msg) →
  (length pages < fuel)%nat →
  GitLab.ListGroupProjects_loop fuel client g 1 results w
  = (Some (inr (PlatformError msg)),
     mkWorld (log w ++ gitlab_page_calls g 1 (S (length pages))) (seed w)).
Proof.
  intros Hmore Hlen Hserve Hfail Hfuel.
  set (n := length pages) in *.
  replace fuel with (n + S (fuel - S n))%nat by lia.
  set (pg := λ q : Z, default [] (pages !! Z.to_nat (q - 1))).
  rewrite (gitlab_loop_prefix client g pg (λ _, totalPages) n 1);
    [| lia | lia | | intros; lia].
  - rewrite (gitlab_loop_fail client g msg).
    + cbn [log seed]. by rewrite <- app_assoc, <- gitlab_page_calls_S.
    + replace (1 + Z.of_nat n) with (Z.of_nat n + 1) by lia. apply Hfail.
  - intros q hist Hq. unfold pg.
    destruct (lookup_lt_is_Some_2 pages (Z.to_nat (q - 1))) as [x Hx]; [lia|].
    rewrite Hx. change (default [] (Some x)) with x.
    rewrite <- (Hserve (Z.to_nat (q - 1)) x hist Hx). do 2 f_equal. lia.
Qed.

(** One group whose answers all name the same total [L]. *)
Lemma gitlab_group_fixed_total (client : GitLab.GitLabClient) (g : string)
    (L : Z) results w fuel :
  int_range L →
  (∀ q hist, ∃ projects, GitLab.serve _ (GitLab.glClient client) hist
                           (GitLab.Groups_ListGroupProjects g q)
                         = inl (projects, {| GitLab.TotalPages := L |})) →
  (Z.to_nat (Z.max 1 L) ≤ fuel)%nat →
  ∃ m, GitLab.ListGroupProjects_loop fuel client g 1 results w
       = (Some (inl m),
          mkWorld (log w ++ gitlab_page_calls g 1 (Z.to_nat (Z.max 1 L))) (seed w)).
Proof.
  intros [HL1 HL2] Hserve Hfuel.
  destruct (Z.to_nat (Z.max 1 L)) as [|k] eqn:HN; [lia|].
  replace fuel with (k + S (fuel - S k))%nat by lia.
  destruct (gitlab_loop_prefix_any client g (λ _, L) k 1 results w (S (fuel - S k)))
    as [m ->]; [lia | lia | intros; apply Hserve | intros; lia |].
  destruct (Hserve (1 + Z.of_nat k) (log w ++ gitlab_page_calls g 1 k))
    as [projects Hprojects].
  rewrite (gitlab_loop_stop client g projects L); [| exact Hprojects | lia ].
  cbn [log seed]. rewrite <- app_assoc, <- gitlab_page_calls_S. by eexists.
Qed.

(** The loop over the groups, when the loop of each group ends well. *)
Lemma gitlab_groups_run (client : GitLab.GitLabClient) (fuel : nat)
    (step : string → gmap string (list string) → gmap string (list string))
    (count : string → nat) (groups : list string) : ∀ results w,
  (∀ g results w, g ∈ groups →
     GitLab.ListGroupProjects_loop fuel client g 1 results w
     = (Some (inl (step g results)),
        mkWorld (log w ++ gitlab_page_calls g 1 (count g)) (seed w))) →
  GitLab.ListRepositories_groups fuel client groups results w
  = (Some (Some (foldl (λ m g, step g m) results groups), None),
     mkWorld (log w ++ gitlab_all_page_calls groups count) (seed w)).
Proof.
  unfold gitlab_all_page_calls.
  induction groups as [|g groups IH]; intros results w Hrun.
  - simpl. st_unfold. by rewrite world_eta.
  - cbn [GitLab.ListRepositories_groups]. st_unfold.
    rewrite Hrun by apply list_elem_of_here.
    rewrite IH by (intros; apply Hrun; by apply list_elem_of_further).
    cbn [log seed foldl]. rewrite fmap_cons. cbn [concat]. by rewrite app_assoc.
Qed.

(** The same when the result of each group's loop is only known to exist. *)
Lemma gitlab_groups_run_any (client : GitLab.GitLabClient) (fuel : nat)
    (count : string → nat) (groups : list string) : ∀ results w,
  (∀ g results w, g ∈ groups →
     ∃ m, GitLab.ListGroupProjects_loop fuel client g 1 results w
          = (Some (inl m), mkWorld (log w ++ gitlab_page_calls g 1 (count g)) (seed w))) →
  ∃ m, GitLab.ListRepositories_groups fuel client groups results w
       = (Some (Some m, None),
          mkWorld (log w ++ gitlab_all_page_calls groups count) (seed w)).
Proof.
  unfold gitlab_all_page_calls.
  induction groups as [|g groups IH]; intros results w Hrun.
  - exists results. simpl. st_unfold. by rewrite world_eta.
  - cbn [GitLab.ListRepositories_groups]. st_unfold.
    destruct (Hrun g results w) as [m ->]; [apply list_elem_of_here|].
    edestruct IH as [m' ->]; [intros; apply Hrun; by apply list_elem_of_further|].
    exists m'. cbn [log seed]. rewrite fmap_cons. cbn [concat]. by rewrite app_assoc.
Qed.

(** Groups that end well, followed by a group whose loop fails. *)
Lemma gitlab_groups_abort (client : GitLab.GitLabClient) (fuel : nat)
    (step : string → gmap string (list string) → gmap string (list string))
    (count : string → nat) (served : list string) (g : string) (rest : list string)
    (err : error) (k : nat) : ∀ results w,
  (∀ g' results w, g' ∈ served →
     GitLab.ListGroupProjects_loop fuel client g' 1 results w
     = (Some (inl (step g' results)),
        mkWorld (log w ++ gitlab_page_calls g' 1 (count g')) (seed w))) →
  (∀ results w,
     GitLab.ListGroupProjects_loop fuel client g 1 results w
     = (Some (inr err), mkWorld (log w ++ gitlab_page_calls g 1 k) (seed w))) →
  GitLab.ListRepositories_groups fuel client (served ++ g :: rest) results w
  = (Some (None, Some err),
     mkWorld (log w ++ gitlab_all_page_calls served count ++ gitlab_page_calls g 1 k)
       (seed w)).
Proof.
  unfold gitlab_all_page_calls.
  induction served as [|g' served IH]; intros results w Hrun Hfail.
  - cbn [app GitLab.ListRepositories_groups]. st_unfold. by rewrite Hfail.
  - cbn [app GitLab.ListRepositories_groups]. st_unfold.
    rewrite Hrun by apply list_elem_of_here.
    rewrite IH; [| intros; apply Hrun; by apply list_elem_of_further | done].
    cbn [log seed]. rewrite fmap_cons. cbn [concat]. by rewrite <- !app_assoc.
Qed.

Lemma gitlab_entries_foldl (groups : list string) (pages : string → list (list string)) :
  ∀ m, foldl (λ m g, foldl add_entry m (pair g <$> concat (pages g))) m groups
       = foldl add_entry m (gitlab_entries groups pages).
Proof.
  unfold gitlab_entries.
  induction groups as [|g groups IH]; intros m; [done|].
  cbn [foldl]. rewrite IH, fmap_cons. cbn [concat]. by rewrite foldl_app.
Qed.

End GitLabListing.

(** ** An error never comes with an accumulated map *)

Section ListingErrors.
Context {vocab : Vocabulary} {ext : Externals} {github : GitHub.Server} {gitlab : GitLab.Sdk}.

Lemma github_loop_error_nil (fuel : nat) : ∀ c p results w m e w',
  GitHub.ListRepositories_loop fuel c p results w = (Some (m, Some e), w') → m = None.
Proof.
  induction fuel as [|fuel IH]; intros c p results w m e w'; [done|].
  cbn [GitHub.ListRepositories_loop]. st_unfold.
  destruct (GitHub.serve _ c (log w) (GitHub.Repositories_List "" p))
    as [[repos response]|msg]; [|congruence].
  destruct (int_succ p >=? GitHub.LastPage response); [congruence|]. apply IH.
Qed.

Lemma github_listing_error_nil fuel client w m e w' :
  GitHub.ListRepositories fuel client w = (Some (m, Some e), w') → m = None.
Proof.
  unfold GitHub.ListRepositories.
  destruct (GitHub.buildGithubClient client) as [c|err].
  - apply github_loop_error_nil.
  - st_unfold. congruence.
Qed.

Lemma gitlab_groups_error_nil (fuel : nat) client (groups : list string) :
  ∀ results w m e w',
  GitLab.ListRepositories_groups fuel client groups results w = (Some (m, Some e), w') →
  m = None.
Proof.
  induction groups as [|g groups IH]; intros results w m e w'.
  - simpl. st_unfold. congruence.
  - cbn [GitLab.ListRepositories_groups]. st_unfold.
    destruct (GitLab.ListGroupProjects_loop fuel client g 1 results w)
      as [[[results'|err]|] w1]; [apply IH | congruence | congruence].
Qed.

(** On GitLab the map handed back with an error is nil, or it is the empty
    map of a failed group listing, made before any page was requested. *)
Lemma gitlab_listing_error_nil fuel client w m e w' :
  GitLab.ListRepositories fuel client w = (Some (m, Some e), w') →
  m = None ∨
  (m = Some ∅ ∧ w' = mkWorld (log w ++ [GitLab.call GitLab.Groups_ListGroups]) (seed w)).
Proof.
  unfold GitLab.ListRepositories. st_unfold.
  destruct (GitLab.serve _ (GitLab.glClient client) (log w) GitLab.Groups_ListGroups)
    as [groups|msg].
  - intros Hrun. left. by eapply gitlab_groups_error_nil.
  - intros [= <- <- <-]. by right.
Qed.

End ListingErrors.

(** ** Termination of the listing of repositories *)

Section Listing.
Context {vocab : Vocabulary} {ext : Externals} {github : GitHub.Server} {gitlab : GitLab.Sdk}.

(** C10. When every page answer names the same last page (GitHub) or the
    same total of pages (GitLab) [L], the listing loop ends: given room for
    [max 1 L] iterations it makes exactly the [max 1 L] page requests (on
    GitLab, for each listed group) and returns; with [L = 0] that is the
    single request of the first page. *)
Theorem listing_terminates_on_fixed_indicator :
  (∀ client c (L : Z) w fuel,
     GitHub.buildGithubClient client = inl c →
     int_range L →
     (∀ q hist, ∃ repos, GitHub.serve _ c hist (GitHub.Repositories_List "" q)
                         = inl (repos, {| GitHub.LastPage := L |})) →
     (Z.to_nat (Z.max 1 L) ≤ fuel)%nat →
     ∃ m, GitHub.ListRepositories fuel client w
          = (Some (Some m, None),
             mkWorld (log w ++ github_page_calls 0 (Z.to_nat (Z.max 1 L))) (seed w))
        ∧ Z.of_nat (length (github_page_calls 0 (Z.to_nat (Z.max 1 L)))) = Z.max 1 L
        ∧ (L = 0 → github_page_calls 0 (Z.to_nat (Z.max 1 L))
                   = [GitHub.call (GitHub.Repositories_List "" 0)])) ∧
  (∀ client (groups : list string) (L : Z) w fuel,
     GitLab.serve _ (GitLab.glClient client) (log w) GitLab.Groups_ListGroups
       = inl groups →
     int_range L →
     (∀ g q hist, ∃ projects, GitLab.serve _ (GitLab.glClient client) hist
                                (GitLab.Groups_ListGroupProjects g q)
                              = inl (projects, {| GitLab.TotalPages := L |})) →
     (Z.to_nat (Z.max 1 L) ≤ fuel)%nat →
     ∃ m, GitLab.ListRepositories fuel client w
          = (Some (Some m, None),
             mkWorld (log w ++ GitLab.call GitLab.Groups_ListGroups
                        :: gitlab_all_page_calls groups (λ _, Z.to_nat (Z.max 1 L)))
               (seed w))
        ∧ (∀ g, Z.of_nat (length (gitlab_page_calls g 1 (Z.to_nat (Z.max 1 L))))
                = Z.max 1 L)
        ∧ (L = 0 → ∀ g, gitlab_page_calls g 1 (Z.to_nat (Z.max 1 L))
                        = [GitLab.call (GitLab.Groups_ListGroupProjects g 1)])).
Proof.
  split.
  - intros client c L w fuel Hc HL Hserve Hfuel.
    destruct (github_listing_fixed_last_page client c L w fuel Hc HL Hserve Hfuel)
      as [m Hm].
    exists m. repeat apply conj; [exact Hm | | by intros ->].
    rewrite github_page_calls_length. lia.
  - intros client groups L w fuel Hgroups HL Hserve Hfuel.
    destruct (gitlab_groups_run_any client fuel (λ _, Z.to_nat (Z.max 1 L)) groups ∅
                (mkWorld (log w ++ [GitLab.call GitLab.Groups_ListGroups]) (seed w)))
      as [m Hm].
    { intros g results w1 _. by apply gitlab_group_fixed_total. }
    exists m. repeat apply conj; [| | by intros ->].
    + unfold GitLab.ListRepositories. st_unfold. rewrite Hgroups, Hm.
      cbn [log seed]. by rewrite <- app_assoc.
    + intros g. rewrite gitlab_page_calls_length. lia.
Qed.

End Listing.

(** ** Argument validation *)

Section Validation.
Context {ext : Externals}.

Lemma validate_empty : validateParametersNotBlank ∅ = None.
Proof.
  unfold validateParametersNotBlank. case_decide as Hex; [|done].
  by apply map_Exists_empty in Hex.
Qed.

Lemma validate_insert (m : gmap string string) (k v : string) :
  m !! k = None →
  validateParametersNotBlank (<[k := v]> m)
  = if isBlank v then Some ValidationError else validateParametersNotBlank m.
Proof.
  intros Hk. unfold validateParametersNotBlank.
  destruct (isBlank v) eqn:Hv.
  - rewrite decide_True; [done|]. apply map_Exists_insert_2_1, Hv.
  - apply decide_ext. rewrite map_Exists_insert by done.
    split; [intros [Hb|Hm]; [congruence|done] | by right].
Qed.

End Validation.



Ltac validate_simpl :=
  repeat (rewrite validate_insert by (by simplify_map_eq));
  rewrite ?validate_empty.

(** ** Claims on the GitHub operations that validate, parse and build *)

Section Operations.
Context {vocab : Vocabulary} {ext : Externals} {github : GitHub.Server} {gitlab : GitLab.Sdk}.

Lemma ssh_key_arguments_checked (client : GitHub.GitHubClient)
    (owner repository keyName publicKey : string) (permission : Permission)
    (w : World GitHub.Call) :
  (isBlank owner = true ∨ isBlank repository = true ∨
   isBlank keyName = true ∨ isBlank publicKey = true →
   GitHub.AddSshKeyToRepository client owner repository keyName publicKey permission w
   = (Some ValidationError, w)) ∧
  (isBlank owner = false → isBlank repository = false →
   isBlank keyName = false → isBlank publicKey = false →
   validateParametersNotBlank
     (<["owner" := owner]> (<["repository" := repository]>
      (<["key name" := keyName]> (<["public key" := publicKey]> ∅)))) = None).
Proof.
  split.
  - intros Hblank. unfold GitHub.AddSshKeyToRepository. validate_simpl.
    destruct (isBlank owner); [done|].
    destruct (isBlank repository); [done|].
    destruct (isBlank keyName); [done|].
    destruct (isBlank publicKey); [done|].
    destruct Hblank as [?|[?|[?|?]]]; discriminate.
  - intros Ho Hr Hk Hp. validate_simpl. by rewrite Ho, Hr, Hk, Hp.
Qed.

(** C5. [AddSshKeyToRepository] with a blank owner, repository, key name or
    public key returns the validation error and makes no call.  With none of
    them blank the validation passes and, on a client that builds, the one
    call made is the creation of the key with that title and content, which
    is read-only exactly when the permission is not [ReadWrite]. *)
Theorem add_ssh_key_validates (client : GitHub.GitHubClient)
    (owner repository keyName publicKey : string) (permission : Permission)
    (w : World GitHub.Call) :
  (isBlank owner = true ∨ isBlank repository = true ∨
   isBlank keyName = true ∨ isBlank publicKey = true →
   GitHub.AddSshKeyToRepository client owner repository keyName publicKey permission w
   = (Some ValidationError, w)) ∧
  (isBlank owner = false → isBlank repository = false →
   isBlank keyName = false → isBlank publicKey = false →
   validateParametersNotBlank
     (<["owner" := owner]> (<["repository" := repository]>
      (<["key name" := keyName]> (<["public key" := publicKey]> ∅)))) = None ∧
   ∀ c, GitHub.buildGithubClient client = inl c →
     ∃ key,
       GitHub.AddSshKeyToRepository client owner repository keyName publicKey permission w
       = (GitHub.err_of (GitHub.serve _ c (log w)
                           (GitHub.Repositories_CreateKey owner repository key)),
          mkWorld (log w ++ [GitHub.call (GitHub.Repositories_CreateKey owner repository key)])
            (seed w))
       ∧ GitHub.Key_Key key = publicKey
       ∧ GitHub.Key_Title key = keyName
       ∧ (GitHub.Key_ReadOnly key = true ↔ permission ≠ ReadWrite)).
Proof.
  destruct (ssh_key_arguments_checked client owner repository keyName publicKey
              permission w) as [Hreject Hpass].
  split; [exact Hreject|].
  - intros Ho Hr Hk Hp. pose proof (Hpass Ho Hr Hk Hp) as Hvalid.
    split; [exact Hvalid|]. intros c Hc.
    unfold GitHub.AddSshKeyToRepository. rewrite Hvalid, Hc. st_unfold.
    exists {| GitHub.Key_Key := publicKey; GitHub.Key_Title := keyName;
              GitHub.Key_ReadOnly := if decide (permission = ReadWrite) then false else true |}.
    split; [|split; [|split]].
    + by destruct (GitHub.serve _ c (log w) _) as [[]|msg].
    + done.
    + done.
    + cbn [GitHub.Key_ReadOnly]. case_decide; split; congruence.
Qed.


(** C7. A webhook id that does not parse makes [UpdateWebhook] and
    [DeleteWebhook] return the parse error without the edit or delete call,
    on both adapters; an id that parses makes them issue that call, and only
    it, with the parsed number.  (On GitHub the client is built first.) *)
Theorem webhook_id_must_parse :
  (∀ client c owner repository branch payloadUrl token webhookId events w,
     GitHub.buildGithubClient client = inl c →
     (strconv_ParseInt webhookId = None →
        GitHub.UpdateWebhook client owner repository branch payloadUrl token webhookId
          events w = (Some (NumError webhookId), w) ∧
        GitHub.DeleteWebhook client owner repository webhookId w
        = (Some (NumError webhookId), w)) ∧
     (∀ id, strconv_ParseInt webhookId = Some id →
        let edit := GitHub.Repositories_EditHook owner repository id
                      (GitHub.createGitHubHook token payloadUrl events) in
        let delete := GitHub.Repositories_DeleteHook owner repository id in
        GitHub.UpdateWebhook client owner repository branch payloadUrl token webhookId
          events w
        = (GitHub.err_of (GitHub.serve _ c (log w) edit),
           mkWorld (log w ++ [GitHub.call edit]) (seed w)) ∧
        GitHub.DeleteWebhook client owner repository webhookId w
        = (GitHub.err_of (GitHub.serve _ c (log w) delete),
           mkWorld (log w ++ [GitHub.call delete]) (seed w)))) ∧
  (∀ client owner repository branch payloadUrl token webhookId events w,
     (strconv_Atoi webhookId = None →
        GitLab.UpdateWebhook client owner repository branch payloadUrl token webhookId
          events w = (Some (NumError webhookId), w) ∧
        GitLab.DeleteWebhook client owner repository webhookId w
        = (Some (NumError webhookId), w)) ∧
     (∀ id, strconv_Atoi webhookId = Some id →
        let edit := GitLab.Projects_EditProjectHook (GitLab.getProjectId owner repository) id
                      (GitLab.hook_options token
                         (GitLab.createProjectHook branch payloadUrl events)) in
        let delete := GitLab.Projects_DeleteProjectHook
                        (GitLab.getProjectId owner repository) id in
        GitLab.UpdateWebhook client owner repository branch payloadUrl token webhookId
          events w
        = (GitLab.err_of (GitLab.serve _ (GitLab.glClient client) (log w) edit),
           mkWorld (log w ++ [GitLab.call edit]) (seed w)) ∧
        GitLab.DeleteWebhook client owner repository webhookId w
        = (GitLab.err_of (GitLab.serve _ (GitLab.glClient client) (log w) delete),
           mkWorld (log w ++ [GitLab.call delete]) (seed w)))).
Proof.
  split.
  - intros client c owner repository branch payloadUrl token webhookId events w Hc.
    unfold GitHub.UpdateWebhook, GitHub.DeleteWebhook. rewrite Hc.
    split; [intros -> | intros id ->]; by st_unfold.
  - intros client owner repository branch payloadUrl token webhookId events w.
    unfold GitLab.UpdateWebhook, GitLab.DeleteWebhook.
    split; [intros -> | intros id ->]; by st_unfold.
Qed.

(** C9. On GitHub the branch handed to [CreateWebhook] and [UpdateWebhook]
    has no effect: with two branches and otherwise the same arguments, run
    from the same world (so the same secret is drawn), the result and the
    calls made are the same; the hook sent holds the mapped events and the
    configuration url, content_type json and secret, and nothing of the
    branch. *)
Theorem github_webhook_ignores_branch :
  (∀ client owner repository branch1 branch2 payloadUrl events w,
     GitHub.CreateWebhook client owner repository branch1 payloadUrl events w
     = GitHub.CreateWebhook client owner repository branch2 payloadUrl events w) ∧
  (∀ client owner repository branch1 branch2 payloadUrl token webhookId events w,
     GitHub.UpdateWebhook client owner repository branch1 payloadUrl token webhookId events w
     = GitHub.UpdateWebhook client owner repository branch2 payloadUrl token webhookId
         events w) ∧
  (∀ client c owner repository branch payloadUrl events w,
     GitHub.buildGithubClient client = inl c →
     log (GitHub.CreateWebhook client owner repository branch payloadUrl events w).2
     = log w ++ [GitHub.call (GitHub.Repositories_CreateHook owner repository
                   {| GitHub.Events := GitHub.getGitHubWebhookEvents events;
                      GitHub.Config := <["url" := payloadUrl]>
                                       (<["content_type" := "json"]>
                                        (<["secret" := token_at (seed w)]> ∅)) |})]) ∧
  (∀ client c owner repository branch payloadUrl token webhookId id events w,
     GitHub.buildGithubClient client = inl c →
     strconv_ParseInt webhookId = Some id →
     log (GitHub.UpdateWebhook client owner repository branch payloadUrl token webhookId
            events w).2
     = log w ++ [GitHub.call (GitHub.Repositories_EditHook owner repository id
                   {| GitHub.Events := GitHub.getGitHubWebhookEvents events;
                      GitHub.Config := <["url" := payloadUrl]>
                                       (<["content_type" := "json"]>
                                        (<["secret" := token]> ∅)) |})]).
Proof.
  repeat apply conj.
  - reflexivity.
  - reflexivity.
  - intros client c owner repository branch payloadUrl events w Hc.
    unfold GitHub.CreateWebhook. rewrite Hc. st_unfold. cbn [log seed].
    by destruct (GitHub.serve _ c (log w) _).
  - intros client c owner repository branch payloadUrl token webhookId id events w Hc Hid.
    unfold GitHub.UpdateWebhook. by rewrite Hc, Hid.
Qed.

End Operations.

(** ** Which operations check their arguments, and where a bad endpoint shows *)

Ltac run_op :=
  intros w; st_unfold; cbn [log seed fst snd];
  repeat match goal with
         | |- context [GitHub.serve ?T ?c ?h ?r] =>
             destruct (GitHub.serve T c h r); cbn [log seed fst snd GitHub.err_of]
         | |- context [GitLab.serve ?T ?c ?h ?r] =>
             destruct (GitLab.serve T c h r); cbn [log seed fst snd GitLab.err_of]
         end;
  rewrite <- ?app_assoc; cbn [app]; (split; [by eexists | done]).

Section Policy.
Context {vocab : Vocabulary} {ext : Externals} {github : GitHub.Server} {gitlab : GitLab.Sdk}.

(** C3, as the adapters have it.  Four GitHub operations check their
    required strings and return the validation error before any call:
    [AddSshKeyToRepository], [GetLatestCommit], [GetRepositoryInfo] and
    [GetCommitBySha].  [ListBranches], [CreateWebhook], [SetCommitStatus],
    [CreatePullRequest] and [DownloadRepository] check nothing on either
    adapter: whatever the strings, blank or not, their first call goes to the
    platform with the strings as given and no validation error is returned. *)
Theorem blank_arguments_policy :
  (* GitHub, checked *)
  (∀ client owner repository keyName publicKey permission,
     isBlank owner = true ∨ isBlank repository = true ∨
     isBlank keyName = true ∨ isBlank publicKey = true →
     rejected id
       (GitHub.AddSshKeyToRepository client owner repository keyName publicKey permission)) ∧
  (∀ client owner repository branch,
     isBlank owner = true ∨ isBlank repository = true ∨ isBlank branch = true →
     rejected snd (GitHub.GetLatestCommit client owner repository branch)) ∧
  (∀ client owner repository,
     isBlank owner = true ∨ isBlank repository = true →
     rejected snd (GitHub.GetRepositoryInfo client owner repository)) ∧
  (∀ client owner repository sha,
     isBlank owner = true ∨ isBlank repository = true ∨ isBlank sha = true →
     rejected snd (GitHub.GetCommitBySha client owner repository sha)) ∧
  (* GitHub, unchecked *)
  (∀ client c, GitHub.buildGithubClient client = inl c →
     (∀ owner repository,
        forwarded snd (GitHub.ListBranches client owner repository)
          (λ _, GitHub.call (GitHub.Repositories_ListBranches owner repository))) ∧
     (∀ owner repository branch payloadUrl events,
        forwarded snd (GitHub.CreateWebhook client owner repository branch payloadUrl events)
          (λ w, GitHub.call (GitHub.Repositories_CreateHook owner repository
                  (GitHub.createGitHubHook (token_at (seed w)) payloadUrl events)))) ∧
     (∀ status owner repository ref title description detailsUrl,
        forwarded id
          (GitHub.SetCommitStatus client status owner repository ref title description
             detailsUrl)
          (λ _, GitHub.call (GitHub.Repositories_CreateStatus owner repository ref
                  {| GitHub.Context := title; GitHub.TargetURL := detailsUrl;
                     GitHub.State := GitHub.getGitHubCommitState status;
                     GitHub.Description := description |}))) ∧
     (∀ owner repository sourceBranch targetBranch title description,
        forwarded id
          (GitHub.CreatePullRequest client owner repository sourceBranch targetBranch
             title description)
          (λ _, GitHub.call (GitHub.PullRequests_Create owner repository
                  {| GitHub.Title := title; GitHub.Body := description;
                     GitHub.Head := owner +:+ ":" +:+ sourceBranch;
                     GitHub.Base := targetBranch |}))) ∧
     (∀ owner repository branch localPath,
        forwarded id (GitHub.DownloadRepository client owner repository branch localPath)
          (λ _, GitHub.call (GitHub.Repositories_GetArchiveLink owner repository branch)))) ∧
  (* GitLab, unchecked *)
  (∀ client,
     (∀ owner repository,
        forwarded snd (GitLab.ListBranches client owner repository)
          (λ _, GitLab.call (GitLab.Branches_ListBranches
                  (GitLab.getProjectId owner repository)))) ∧
     (∀ owner repository branch payloadUrl events,
        forwarded snd (GitLab.CreateWebhook client owner repository branch payloadUrl events)
          (λ w, GitLab.call (GitLab.Projects_AddProjectHook
                  (GitLab.getProjectId owner repository)
                  (GitLab.hook_options (token_at (seed w))
                     (GitLab.createProjectHook branch payloadUrl events))))) ∧
     (∀ status owner repository ref title description detailsUrl,
        forwarded id
          (GitLab.SetCommitStatus client status owner repository ref title description
             detailsUrl)
          (λ _, GitLab.call (GitLab.Commits_SetCommitStatus
                  (GitLab.getProjectId owner repository) ref
                  {| GitLab.State := GitLab.getGitLabCommitState status;
                     GitLab.Ref := ref; GitLab.Name := title;
                     GitLab.Description := description;
                     GitLab.TargetURL := detailsUrl |}))) ∧
     (∀ owner repository sourceBranch targetBranch title description,
        forwarded id
          (GitLab.CreatePullRequest client owner repository sourceBranch targetBranch
             title description)
          (λ _, GitLab.call (GitLab.MergeRequests_CreateMergeRequest
                  (GitLab.getProjectId owner repository)
                  {| GitLab.Title := title; GitLab.MR_Description := description;
                     GitLab.SourceBranch := sourceBranch;
                     GitLab.TargetBranch := targetBranch |}))) ∧
     (∀ owner repository branch localPath,
        forwarded id (GitLab.DownloadRepository client owner repository branch localPath)
          (λ _, GitLab.call (GitLab.Repositories_Archive
                  (GitLab.getProjectId owner repository)
                  {| GitLab.Format := "tar.gz"; GitLab.SHA := branch |})))).
Proof.
  repeat apply conj.
  - intros client owner repository keyName publicKey permission Hblank w.
    by rewrite (proj1 (ssh_key_arguments_checked client owner repository keyName publicKey
                         permission w) Hblank).
  - intros client owner repository branch Hblank w.
    unfold GitHub.GetLatestCommit. validate_simpl.
    destruct (isBlank owner); [done|]. destruct (isBlank repository); [done|].
    destruct (isBlank branch); [done|]. destruct Hblank as [?|[?|?]]; discriminate.
  - intros client owner repository Hblank w.
    unfold GitHub.GetRepositoryInfo. validate_simpl.
    destruct (isBlank owner); [done|]. destruct (isBlank repository); [done|].
    destruct Hblank as [?|?]; discriminate.
  - intros client owner repository sha Hblank w.
    unfold GitHub.GetCommitBySha. validate_simpl.
    destruct (isBlank owner); [done|]. destruct (isBlank repository); [done|].
    destruct (isBlank sha); [done|]. destruct Hblank as [?|[?|?]]; discriminate.
  - intros client c Hc. repeat apply conj; intros.
    + unfold GitHub.ListBranches. rewrite Hc. run_op.
    + unfold GitHub.CreateWebhook. rewrite Hc. run_op.
    + unfold GitHub.SetCommitStatus. rewrite Hc. run_op.
    + unfold GitHub.CreatePullRequest. rewrite Hc. run_op.
    + unfold GitHub.DownloadRepository. rewrite Hc. run_op.
  - intros client. repeat apply conj; intros.
    + unfold GitLab.ListBranches. run_op.
    + unfold GitLab.CreateWebhook. run_op.
    + unfold GitLab.SetCommitStatus. run_op.
    + unfold GitLab.CreatePullRequest. run_op.
    + unfold GitLab.DownloadRepository. run_op.
Qed.


End Policy.

(** * Runs in the concrete setting *)

Ltac by_page Hi :=
  repeat (match type of Hi with
          | _ !! ?i = Some _ => destruct i; simplify_eq/=; try reflexivity
          end).

Ltac not_listed :=
  let Hin := fresh "Hin" in
  intros Hin; repeat (apply elem_of_cons in Hin as [Hin|Hin]; [discriminate|]);
  by apply elem_of_nil in Hin.

Section Runs.
#[local] Existing Instances Demo.vocabulary Demo.externals Demo.gh_ok Demo.gl_ok.

Lemma commit_state_mapping_witness :
  GitHub.getGitHubCommitState (1 : Z) = "failure" ∧
  GitLab.getGitLabCommitState (1 : Z) = "failed" ∧
  GitHub.getGitHubCommitState (3 : Z) = "pending" ∧
  GitLab.getGitLabCommitState (3 : Z) = "running".
Proof.
  destruct (commit_state_mapping)
    as ((_ & Hfail & _ & Hprogress) & (_ & Hfail' & _ & Hprogress') & _).
  exact (conj Hfail (conj Hfail' (conj Hprogress Hprogress'))).
Defined.

Lemma unmapped_values_map_to_nothing_witness :
  (GitHub.getGitHubCommitState (7 : Z) = "" ∧ GitLab.getGitLabCommitState (7 : Z) = "") ∧
  GitHub.getGitHubWebhookEvents ["tag"] = [] ∧
  GitHub.getGitHubWebhookEvents ["push"; "tag"; "opened"]
  = GitHub.getGitHubWebhookEvents ["push"; "opened"] ∧
  GitLab.createProjectHook "main" "https://ci.example/hook" ["push"; "tag"; "opened"]
  = GitLab.createProjectHook "main" "https://ci.example/hook" ["push"; "opened"].
Proof.
  destruct unmapped_values_map_to_nothing as [Hstatus Hevent].
  split; [apply Hstatus; not_listed|].
  destruct (Hevent "tag") as (Hone & Hgh & Hgl); [not_listed|].
  split; [exact Hone|]. split.
  - exact (Hgh ["push"] ["opened"]).
  - exact (Hgl "main" "https://ci.example/hook" ["push"] ["opened"]).
Defined.

(** C2, where the code departs from it.  On a GitHub platform that numbers
    its three pages from 1 and names 3 as the last page, [ListRepositories]
    requests the pages 0, 1 and 2 and stops: the first page comes back
    twice, the third page is never requested, and its repositories are
    missing from the result, however many iterations the loop is allowed. *)
Theorem github_listing_misses_last_page (extra : nat) :
  ∃ m,
    GitHub.ListRepositories (github := Demo.gh_one_based) (3 + extra)
      Demo.github_client Demo.w0
    = (Some (Some m, None), mkWorld (github_page_calls 0 3) 0) ∧
    m !! "jfrog" = Some ["repo-1"; "repo-1"; "repo-2"] ∧
    m !! "frogger" = Some ["pond"; "pond"] ∧
    listed "jfrog" (github_entries Demo.github_pages)
    = Some ["repo-1"; "repo-2"; "repo-3"] ∧
    listed "frogger" (github_entries Demo.github_pages) = Some ["pond"; "lily"].
Proof.
  set (pg := λ q : Z, default [] (Demo.github_pages !! Z.to_nat (Z.max q 1 - 1))).
  exists (aggregate (github_entries (pg <$> seqZ 0 (Z.of_nat 3)))).
  split; [|by vm_compute].
  apply (github_listing_reads (github := Demo.gh_one_based) Demo.github_client
           Demo.github_built pg 3 Demo.w0 (3 + extra)).
  - reflexivity.
  - lia.
  - by vm_compute.
  - intros q hist Hq.
    assert (q = 0 ∨ q = 1 ∨ q = 2) as [-> | [-> | ->]] by lia; reflexivity.
  - lia.
Qed.

Lemma listing_terminates_on_fixed_indicator_witness :
  (∃ m, GitHub.ListRepositories 3 Demo.github_client Demo.w0
        = (Some (Some m, None), mkWorld (github_page_calls 0 3) 0)) ∧
  (∃ m, GitHub.ListRepositories (github := Demo.gh_single) 1 Demo.github_client Demo.w0
        = (Some (Some m, None),
           mkWorld [GitHub.call (GitHub.Repositories_List "" 0)] 0)) ∧
  (∃ m, GitLab.ListRepositories (gitlab := Demo.gl_fixed) 2 Demo.gl_fixed_client Demo.w0
        = (Some (Some m, None),
           mkWorld (GitLab.call GitLab.Groups_ListGroups
                      :: gitlab_page_calls "jfrog" 1 2 ++ gitlab_page_calls "frogger" 1 2) 0)).
Proof.
  repeat apply conj.
  - destruct (listing_terminates_on_fixed_indicator (gitlab := Demo.gl_fixed)) as [Hgh _].
    edestruct (Hgh Demo.github_client Demo.github_built 3 Demo.w0 3%nat) as (m & Hrun & _).
    + reflexivity.
    + by vm_compute.
    + intros q hist. by eexists.
    + simpl. lia.
    + by exists m.
  - destruct (listing_terminates_on_fixed_indicator (github := Demo.gh_single)
                (gitlab := Demo.gl_fixed)) as [Hgh _].
    edestruct (Hgh Demo.github_client Demo.github_built 0 Demo.w0 1%nat) as (m & Hrun & _).
    + reflexivity.
    + by vm_compute.
    + intros q hist. by eexists.
    + simpl. lia.
    + by exists m.
  - destruct (listing_terminates_on_fixed_indicator (gitlab := Demo.gl_fixed)) as [_ Hgl].
    edestruct (Hgl Demo.gl_fixed_client ["jfrog"; "frogger"] 2 Demo.w0 2%nat)
      as (m & Hrun & _).
    + reflexivity.
    + by vm_compute.
    + intros g q hist. by eexists.
    + simpl. lia.
    + by exists m.
Defined.

Lemma add_ssh_key_validates_witness :
  GitHub.AddSshKeyToRepository Demo.github_client
    " " "repo-1" "deploy" "ssh-rsa AAAA" Demo.Read Demo.w0
  = (Some ValidationError, Demo.w0) ∧
  GitHub.AddSshKeyToRepository Demo.github_client
    "jfrog" "repo-1" "deploy" "ssh-rsa AAAA" Demo.Read Demo.w0
  = (None, mkWorld [GitHub.call (GitHub.Repositories_CreateKey "jfrog" "repo-1"
                      {| GitHub.Key_Key := "ssh-rsa AAAA"; GitHub.Key_Title := "deploy";
                         GitHub.Key_ReadOnly := true |})] 0) ∧
  GitHub.AddSshKeyToRepository Demo.github_client
    "jfrog" "repo-1" "deploy" "ssh-rsa AAAA" ReadWrite Demo.w0
  = (None, mkWorld [GitHub.call (GitHub.Repositories_CreateKey "jfrog" "repo-1"
                      {| GitHub.Key_Key := "ssh-rsa AAAA"; GitHub.Key_Title := "deploy";
                         GitHub.Key_ReadOnly := false |})] 0).
Proof.
  repeat apply conj.
  - apply add_ssh_key_validates. by left.
  - destruct (add_ssh_key_validates Demo.github_client
                "jfrog" "repo-1" "deploy" "ssh-rsa AAAA" Demo.Read Demo.w0) as [_ Hpass].
    destruct Hpass as [_ Hrun]; [reflexivity..|].
    destruct (Hrun Demo.github_built) as (key & Hkey & Hk & Ht & Hro); [reflexivity|].
    rewrite Hkey. destruct key as [kk kt [|]]; simpl in Hk, Ht; subst; [reflexivity|].
    simpl in Hro. by destruct (proj2 Hro).
  - destruct (add_ssh_key_validates Demo.github_client
                "jfrog" "repo-1" "deploy" "ssh-rsa AAAA" ReadWrite Demo.w0) as [_ Hpass].
    destruct Hpass as [_ Hrun]; [reflexivity..|].
    destruct (Hrun Demo.github_built) as (key & Hkey & Hk & Ht & Hro); [reflexivity|].
    rewrite Hkey. destruct key as [kk kt [|]]; simpl in Hk, Ht; subst; [|reflexivity].
    simpl in Hro. by destruct (proj1 Hro).
Defined.


Lemma webhook_id_must_parse_witness :
  GitHub.UpdateWebhook Demo.github_client "jfrog" "repo-1" "main"
    "https://ci.example/hook" "s3cret" "12x" ["push"] Demo.w0
  = (Some (NumError "12x"), Demo.w0) ∧
  GitHub.DeleteWebhook Demo.github_client "jfrog" "repo-1" "17" Demo.w0
  = (None, mkWorld [GitHub.call (GitHub.Repositories_DeleteHook "jfrog" "repo-1" 17)] 0) ∧
  GitLab.DeleteWebhook Demo.gl_ok_client "jfrog" "repo-1" "" Demo.w0
  = (Some (NumError ""), Demo.w0) ∧
  GitLab.UpdateWebhook Demo.gl_ok_client "jfrog" "repo-1" "main"
    "https://ci.example/hook" "s3cret" "23" ["push"] Demo.w0
  = (None,
     mkWorld [GitLab.call (GitLab.Projects_EditProjectHook "jfrog/repo-1" 23
                {| GitLab.Opt_Token := "s3cret";
                   GitLab.Opt_URL := "https://ci.example/hook";
                   GitLab.Opt_MergeRequestsEvents := false;
                   GitLab.Opt_PushEvents := true;
                   GitLab.Opt_PushEventsBranchFilter := "main" |})] 0).
Proof.
  destruct webhook_id_must_parse as [Hgh Hgl].
  repeat apply conj.
  - apply (Hgh Demo.github_client Demo.github_built "jfrog" "repo-1" "main"
             "https://ci.example/hook" "s3cret" "12x" ["push"] Demo.w0); reflexivity.
  - apply (Hgh Demo.github_client Demo.github_built "jfrog" "repo-1" "main"
             "https://ci.example/hook" "s3cret" "17" ["push"] Demo.w0 eq_refl).
    reflexivity.
  - apply (Hgl Demo.gl_ok_client "jfrog" "repo-1" "main"
             "https://ci.example/hook" "s3cret" "" ["push"] Demo.w0). reflexivity.
  - apply (Hgl Demo.gl_ok_client "jfrog" "repo-1" "main"
             "https://ci.example/hook" "s3cret" "23" ["push"] Demo.w0). reflexivity.
Defined.

Lemma github_webhook_ignores_branch_witness :
  GitHub.CreateWebhook Demo.github_client "jfrog" "repo-1" "main"
    "https://ci.example/hook" ["push"; "opened"] Demo.w0
  = GitHub.CreateWebhook Demo.github_client "jfrog" "repo-1" "release"
      "https://ci.example/hook" ["push"; "opened"] Demo.w0 ∧
  log (GitHub.CreateWebhook Demo.github_client "jfrog" "repo-1" "main"
         "https://ci.example/hook" ["push"; "opened"] Demo.w0).2
  = [GitHub.call (GitHub.Repositories_CreateHook "jfrog" "repo-1"
       {| GitHub.Events := ["push"; "pull_request"];
          GitHub.Config := <["url" := "https://ci.example/hook"]>
                           (<["content_type" := "json"]>
                            (<["secret" := "secret-0"]> ∅)) |})] ∧
  log (GitHub.UpdateWebhook Demo.github_client "jfrog" "repo-1" "release"
         "https://ci.example/hook" "s3cret" "17" ["push"] Demo.w0).2
  = [GitHub.call (GitHub.Repositories_EditHook "jfrog" "repo-1" 17
       {| GitHub.Events := ["push"];
          GitHub.Config := <["url" := "https://ci.example/hook"]>
                           (<["content_type" := "json"]>
                            (<["secret" := "s3cret"]> ∅)) |})].
Proof.
  destruct github_webhook_ignores_branch as (Hcreate & _ & Hsent & Hedit).
  repeat apply conj.
  - apply Hcreate.
  - rewrite (Hsent Demo.github_client Demo.github_built) by reflexivity. reflexivity.
  - rewrite (Hedit Demo.github_client Demo.github_built _ _ _ _ _ _ 17) by reflexivity.
    reflexivity.
Defined.

(** A blank owner and repository go through [ListBranches] to the platform
    on both adapters: no validation error, one call made. *)
Lemma blank_arguments_reach_platform :
  isBlank "" = true ∧
  GitHub.ListBranches Demo.github_client "" "" Demo.w0
  = ((Some ["main"; "dev"], None),
     mkWorld [GitHub.call (GitHub.Repositories_ListBranches "" "")] 0) ∧
  GitLab.ListBranches Demo.gl_ok_client "" "" Demo.w0
  = ((Some ["main"], None), mkWorld [GitLab.call (GitLab.Branches_ListBranches "/")] 0).
Proof. repeat apply conj; reflexivity. Qed.

Lemma blank_arguments_policy_witness :
  rejected snd (GitHub.GetLatestCommit Demo.github_client "jfrog" "" "main") ∧
  (∃ rest,
     log (GitHub.SetCommitStatus Demo.github_client Pass
            "" " " "ff4a54b5" "build" "passed" "https://ci.example/1" Demo.w0).2
     = GitHub.call (GitHub.Repositories_CreateStatus "" " " "ff4a54b5"
         {| GitHub.Context := "build"; GitHub.TargetURL := "https://ci.example/1";
            GitHub.State := "success"; GitHub.Description := "passed" |}) :: rest).
Proof.
  destruct blank_arguments_policy as (_ & Hlatest & _ & _ & Hgh & _).
  split.
  - apply Hlatest. right. by left.
  - destruct (Hgh Demo.github_client Demo.github_built eq_refl)
      as (_ & _ & Hstatus & _).
    apply (Hstatus Pass "" " " "ff4a54b5" "build" "passed" "https://ci.example/1"
             Demo.w0).
Defined.



End Runs.

(** * Further properties of the adapters *)

(** ** Webhook events *)

Section Events.
Context {vocab : Vocabulary}.

Lemma github_events_from (events : list string) (webhookEvents : list WebhookEvent) :
  foldl (λ events event,
           if decide (event = PrCreated ∨ event = PrEdited) then events ++ ["pull_request"]
           else if decide (event = Push) then events ++ ["push"]
           else events)
        events webhookEvents
  = events ++ GitHub.getGitHubWebhookEvents webhookEvents.
Proof.
  unfold GitHub.getGitHubWebhookEvents.
  induction webhookEvents as [|e es IH] using rev_ind.
  - simpl. by rewrite app_nil_r.
  - rewrite !foldl_app. cbn [foldl]. rewrite IH.
    repeat case_decide; by rewrite ?app_assoc.
Qed.

(** X1. The GitHub event names are produced event by event and in order:
    the names of a concatenation are the concatenation of the names.  Only
    "pull_request" and "push" ever appear, never more names than events, and
    nothing is merged: [PrCreated] followed by [PrEdited] gives
    "pull_request" twice. *)
Theorem github_events_in_order :
  (∀ before after : list WebhookEvent,
     GitHub.getGitHubWebhookEvents (before ++ after)
     = GitHub.getGitHubWebhookEvents before ++ GitHub.getGitHubWebhookEvents after) ∧
  (∀ events : list WebhookEvent,
     Forall (λ name, name = "pull_request" ∨ name = "push")
       (GitHub.getGitHubWebhookEvents events) ∧
     (length (GitHub.getGitHubWebhookEvents events) ≤ length events)%nat) ∧
  GitHub.getGitHubWebhookEvents [PrCreated; PrEdited; Push]
  = ["pull_request"; "pull_request"; "push"].
Proof.
  assert (Happ : ∀ before after : list WebhookEvent,
            GitHub.getGitHubWebhookEvents (before ++ after)
            = GitHub.getGitHubWebhookEvents before ++ GitHub.getGitHubWebhookEvents after).
  { intros before after. unfold GitHub.getGitHubWebhookEvents at 1.
    rewrite foldl_app. fold (GitHub.getGitHubWebhookEvents before).
    apply github_events_from. }
  destruct WebhookEvent_distinct as (Hce & Hcp & Hep).
  split; [exact Happ|]. split.
  - intros events. induction events as [|e es [IHn IHl]]; [by split|].
    change (e :: es) with ([e] ++ es). rewrite Happ, length_app.
    assert (He : GitHub.getGitHubWebhookEvents [e] = ["pull_request"]
                 ∨ GitHub.getGitHubWebhookEvents [e] = ["push"]
                 ∨ GitHub.getGitHubWebhookEvents [e] = []).
    { unfold GitHub.getGitHubWebhookEvents. cbn [foldl]. repeat case_decide; auto. }
    destruct He as [-> | [-> | ->]]; cbn [app length]; split;
      try lia; try done; apply Forall_cons_2; auto.
  - unfold GitHub.getGitHubWebhookEvents. cbn [foldl].
    repeat case_decide; first [done | exfalso; intuition congruence].
Qed.

(** How one event changes the flags of a GitLab hook. *)
Lemma gitlab_hook_from (branch : string) (events : list WebhookEvent) :
  ∀ options : GitLab.ProjectHook,
  let hook :=
    foldl (λ options webhookEvent,
             if decide (webhookEvent = PrCreated ∨ webhookEvent = PrEdited)
             then {| GitLab.URL := GitLab.URL options; GitLab.MergeRequestsEvents := true;
                     GitLab.PushEvents := GitLab.PushEvents options;
                     GitLab.PushEventsBranchFilter := GitLab.PushEventsBranchFilter options |}
             else if decide (webhookEvent = Push)
             then {| GitLab.URL := GitLab.URL options;
                     GitLab.MergeRequestsEvents := GitLab.MergeRequestsEvents options;
                     GitLab.PushEvents := true; GitLab.PushEventsBranchFilter := branch |}
             else options)
          options events in
  GitLab.URL hook = GitLab.URL options ∧
  GitLab.MergeRequestsEvents hook
  = GitLab.MergeRequestsEvents options
    || bool_decide (PrCreated ∈ events ∨ PrEdited ∈ events) ∧
  GitLab.PushEvents hook = GitLab.PushEvents options || bool_decide (Push ∈ events) ∧
  GitLab.PushEventsBranchFilter hook
  = if bool_decide (Push ∈ events) then branch else GitLab.PushEventsBranchFilter options.
Proof.
  destruct WebhookEvent_distinct as (Hce & Hcp & Hep).
  induction events as [|e es IH]; intros options hook.
  - subst hook. cbn [foldl].
    rewrite (bool_decide_eq_false_2 (Push ∈ [])) by (by intros ?%elem_of_nil).
    rewrite (bool_decide_eq_false_2 (_ ∨ _)) by (by intros [?%elem_of_nil|?%elem_of_nil]).
    by rewrite !orb_false_r.
  - subst hook. cbn [foldl]. cbv zeta in IH.
    destruct (decide (e = PrCreated ∨ e = PrEdited)) as [Hpr|Hpr].
    + destruct (IH {| GitLab.URL := GitLab.URL options; GitLab.MergeRequestsEvents := true;
                      GitLab.PushEvents := GitLab.PushEvents options;
                      GitLab.PushEventsBranchFilter := GitLab.PushEventsBranchFilter options |})
        as (-> & -> & -> & ->). cbn.
      assert (Hne : e ≠ Push) by (destruct Hpr; congruence).
      rewrite (bool_decide_ext (Push ∈ e :: es) (Push ∈ es))
        by (rewrite elem_of_cons; intuition congruence).
      rewrite (bool_decide_eq_true_2 (PrCreated ∈ e :: es ∨ PrEdited ∈ e :: es))
        by (rewrite !elem_of_cons; intuition congruence).
      by rewrite orb_true_r.
    + destruct (decide (e = Push)) as [->|Hpush].
      * destruct (IH {| GitLab.URL := GitLab.URL options;
                        GitLab.MergeRequestsEvents := GitLab.MergeRequestsEvents options;
                        GitLab.PushEvents := true; GitLab.PushEventsBranchFilter := branch |})
          as (-> & -> & -> & ->). cbn.
        rewrite (bool_decide_eq_true_2 (Push ∈ Push :: es)) by apply list_elem_of_here.
        rewrite (bool_decide_ext (PrCreated ∈ Push :: es ∨ PrEdited ∈ Push :: es)
                   (PrCreated ∈ es ∨ PrEdited ∈ es))
          by (rewrite !elem_of_cons; intuition congruence).
        rewrite orb_true_r. by destruct (bool_decide (Push ∈ es)).
      * destruct (IH options) as (-> & -> & -> & ->).
        rewrite (bool_decide_ext (Push ∈ e :: es) (Push ∈ es))
          by (rewrite elem_of_cons; intuition congruence).
        by rewrite (bool_decide_ext (PrCreated ∈ e :: es ∨ PrEdited ∈ e :: es)
                      (PrCreated ∈ es ∨ PrEdited ∈ es))
          by (rewrite !elem_of_cons; intuition congruence).
Qed.

(** X2. The GitLab hook built from a list of events depends only on which
    events occur in it: merge-request events are on exactly when [PrCreated]
    or [PrEdited] occurs, push events exactly when [Push] occurs, and the
    branch filter is the branch when [Push] occurs and empty otherwise; the
    URL is the payload URL. *)
Theorem gitlab_hook_by_membership (branch payloadUrl : string)
    (events : list WebhookEvent) :
  GitLab.createProjectHook branch payloadUrl events
  = {| GitLab.URL := payloadUrl;
       GitLab.MergeRequestsEvents := bool_decide (PrCreated ∈ events ∨ PrEdited ∈ events);
       GitLab.PushEvents := bool_decide (Push ∈ events);
       GitLab.PushEventsBranchFilter := if bool_decide (Push ∈ events) then branch else "" |}.
Proof.
  unfold GitLab.createProjectHook.
  pose proof (gitlab_hook_from branch events
                {| GitLab.URL := payloadUrl; GitLab.MergeRequestsEvents := false;
                   GitLab.PushEvents := false; GitLab.PushEventsBranchFilter := "" |}) as Hh.
  cbv zeta in Hh. destruct Hh as (Hu & Hm & Hp & Hf).
  destruct (foldl _ _ events) as [u m p f]. cbn in Hu, Hm, Hp, Hf. by subst.
Qed.

End Events.

Section GitLabWebhooks.
Context {vocab : Vocabulary} {ext : Externals} {gitlab : GitLab.Sdk}.

(** X3. On GitLab the branch reaches the platform only through the push
    filter: when [Push] is not among the events, [CreateWebhook] and
    [UpdateWebhook] behave the same for any two branches; when it is, the
    hook sent carries the branch as its push filter.  Two event lists with
    the same members, in any order and with any repetition, give the same
    run. *)
Theorem gitlab_webhook_branch_only_with_push (client : GitLab.GitLabClient)
    (owner repository payloadUrl : string) (w : World GitLab.Call) :
  (∀ branch1 branch2 events, Push ∉ events →
     GitLab.CreateWebhook client owner repository branch1 payloadUrl events w
     = GitLab.CreateWebhook client owner repository branch2 payloadUrl events w ∧
     ∀ token webhookId,
       GitLab.UpdateWebhook client owner repository branch1 payloadUrl token webhookId
         events w
       = GitLab.UpdateWebhook client owner repository branch2 payloadUrl token webhookId
           events w) ∧
  (∀ branch events, Push ∈ events →
     log (GitLab.CreateWebhook client owner repository branch payloadUrl events w).2
     = log w ++ [GitLab.call (GitLab.Projects_AddProjectHook
                   (GitLab.getProjectId owner repository)
                   {| GitLab.Opt_Token := token_at (seed w);
                      GitLab.Opt_URL := payloadUrl;
                      GitLab.Opt_MergeRequestsEvents :=
                        bool_decide (PrCreated ∈ events ∨ PrEdited ∈ events);
                      GitLab.Opt_PushEvents := true;
                      GitLab.Opt_PushEventsBranchFilter := branch |})]) ∧
  (∀ branch events1 events2, (∀ e, e ∈ events1 ↔ e ∈ events2) →
     GitLab.CreateWebhook client owner repository branch payloadUrl events1 w
     = GitLab.CreateWebhook client owner repository branch payloadUrl events2 w).
Proof.
  repeat apply conj.
  - intros branch1 branch2 events Hpush.
    assert (Hhook : GitLab.createProjectHook branch1 payloadUrl events
                    = GitLab.createProjectHook branch2 payloadUrl events).
    { rewrite !gitlab_hook_by_membership. by rewrite (bool_decide_eq_false_2 _ Hpush). }
    split.
    + unfold GitLab.CreateWebhook. by rewrite Hhook.
    + intros token webhookId. unfold GitLab.UpdateWebhook. by rewrite Hhook.
  - intros branch events Hpush. unfold GitLab.CreateWebhook. st_unfold.
    rewrite gitlab_hook_by_membership, (bool_decide_eq_true_2 _ Hpush).
    cbn [log seed]. unfold GitLab.hook_options. cbn.
    by destruct (GitLab.serve _ _ _ _).
  - intros branch events1 events2 Hsame.
    assert (Hhook : GitLab.createProjectHook branch payloadUrl events1
                    = GitLab.createProjectHook branch payloadUrl events2).
    { rewrite !gitlab_hook_by_membership.
      rewrite (bool_decide_ext (Push ∈ events1) (Push ∈ events2)) by apply Hsame.
      by rewrite (bool_decide_ext (PrCreated ∈ events1 ∨ PrEdited ∈ events1)
                    (PrCreated ∈ events2 ∨ PrEdited ∈ events2))
        by (rewrite !Hsame; done). }
    unfold GitLab.CreateWebhook. by rewrite Hhook.
Qed.

End GitLabWebhooks.

(** ** Strings: the endpoint and the project identifier *)

Lemma string_length_app (s t : string) :
  String.length (s +:+ t) = (String.length s + String.length t)%nat.
Proof. induction s as [|c s IH]; simpl; [done|]. by rewrite IH. Qed.

Lemma substring_whole (t : string) : String.substring 0 (String.length t) t = t.
Proof. induction t as [|c t IH]; simpl; [done|]. by rewrite IH. Qed.

Lemma substring_app_skip (s t : string) (k : nat) :
  String.substring (String.length s) k (s +:+ t) = String.substring 0 k t.
Proof. induction s as [|c s IH]; simpl; [done|]. exact IH. Qed.

Lemma substring_app_prefix (s t : string) :
  String.substring 0 (String.length s) (s +:+ t) = s.
Proof.
  induction s as [|c s IH]; simpl; [by destruct t|]. by rewrite IH.
Qed.

Lemma substring_split (s : string) : ∀ m : nat, (m ≤ String.length s)%nat →
  s = String.substring 0 m s +:+ String.substring m (String.length s - m) s.
Proof.
  induction s as [|c s IH]; intros m Hm.
  - simpl in Hm. assert (m = 0%nat) as -> by lia. done.
  - destruct m as [|m].
    + cbn [String.substring String.length Nat.sub String.append].
      by rewrite substring_whole.
    + cbn [String.substring String.length Nat.sub].
      transitivity (String c (String.substring 0 m s
                              +:+ String.substring m (String.length s - m) s)); [|done].
      f_equal. apply IH. simpl in Hm. lia.
Qed.

(** [strings.TrimSuffix] takes a suffix off once, and leaves alone a string
    that does not end in it. *)
Lemma TrimSuffix_app (s suffix : string) : TrimSuffix (s +:+ suffix) suffix = s.
Proof.
  unfold TrimSuffix. rewrite string_length_app.
  replace (String.length s + String.length suffix - String.length suffix)%nat
    with (String.length s) by lia.
  rewrite substring_app_skip, substring_whole, substring_app_prefix.
  rewrite bool_decide_eq_true_2 by lia. by rewrite bool_decide_eq_true_2.
Qed.

Lemma TrimSuffix_other (s suffix : string) :
  (∀ p, s ≠ p +:+ suffix) → TrimSuffix s suffix = s.
Proof.
  intros Hno. unfold TrimSuffix.
  destruct (bool_decide (String.length suffix ≤ String.length s)%nat) eqn:Hle; [|done].
  destruct (bool_decide (String.substring _ _ s = suffix)) eqn:Hsuf; [|done].
  apply bool_decide_eq_true_1 in Hle, Hsuf. exfalso.
  apply (Hno (String.substring 0 (String.length s - String.length suffix) s)).
  pose proof (substring_split s (String.length s - String.length suffix)) as Hsplit.
  replace (String.length s - (String.length s - String.length suffix))%nat
    with (String.length suffix) in Hsplit by lia.
  rewrite Hsuf in Hsplit. apply Hsplit. lia.
Qed.

Section Endpoint.
Context {vocab : Vocabulary} {ext : Externals} {github : GitHub.Server}.

(** X4. A GitHub endpoint is used with exactly one slash at its end: an
    endpoint that does not end in a slash and the same endpoint followed by
    one slash build the same client, or fail with the same error, and every
    operation runs the same on the two. *)
Theorem github_endpoint_trailing_slash (endpoint token username : string) :
  endpoint ≠ "" →
  (∀ p, endpoint ≠ p +:+ "/") →
  let plain := {| GitHub.vcsInfo := {| ApiEndpoint := endpoint; Token := token;
                                       Username := username |} |} in
  let slashed := {| GitHub.vcsInfo := {| ApiEndpoint := endpoint +:+ "/"; Token := token;
                                         Username := username |} |} in
  GitHub.buildGithubClient slashed = GitHub.buildGithubClient plain ∧
  GitHub.buildGithubClient plain
  = match url_Parse (endpoint +:+ "/") with
    | Some baseUrl =>
        inl {| GitHub.AccessToken := if decide (token ≠ "") then Some token else None;
               GitHub.BaseURL := Some baseUrl |}
    | None => inr (UrlError (endpoint +:+ "/"))
    end ∧
  (GitHub.TestConnection slashed = GitHub.TestConnection plain ∧
   GitHub.AddSshKeyToRepository slashed = GitHub.AddSshKeyToRepository plain ∧
   (∀ fuel, GitHub.ListRepositories fuel slashed = GitHub.ListRepositories fuel plain) ∧
   GitHub.ListBranches slashed = GitHub.ListBranches plain ∧
   GitHub.CreateWebhook slashed = GitHub.CreateWebhook plain ∧
   GitHub.UpdateWebhook slashed = GitHub.UpdateWebhook plain ∧
   GitHub.DeleteWebhook slashed = GitHub.DeleteWebhook plain ∧
   GitHub.SetCommitStatus slashed = GitHub.SetCommitStatus plain ∧
   GitHub.DownloadRepository slashed = GitHub.DownloadRepository plain ∧
   GitHub.CreatePullRequest slashed = GitHub.CreatePullRequest plain ∧
   GitHub.GetLatestCommit slashed = GitHub.GetLatestCommit plain ∧
   GitHub.GetRepositoryInfo slashed = GitHub.GetRepositoryInfo plain ∧
   GitHub.GetCommitBySha slashed = GitHub.GetCommitBySha plain).
Proof.
  intros Hne Hslash plain slashed.
  assert (Hplain : GitHub.buildGithubClient plain
                   = match url_Parse (endpoint +:+ "/") with
                     | Some baseUrl =>
                         inl {| GitHub.AccessToken :=
                                  if decide (token ≠ "") then Some token else None;
                                GitHub.BaseURL := Some baseUrl |}
                     | None => inr (UrlError (endpoint +:+ "/"))
                     end).
  { unfold GitHub.buildGithubClient, plain. cbn [GitHub.vcsInfo ApiEndpoint Token].
    rewrite (decide_True (P := endpoint ≠ "")) by done.
    by rewrite TrimSuffix_other. }
  assert (Hsame : GitHub.buildGithubClient slashed = GitHub.buildGithubClient plain).
  { rewrite Hplain.
    unfold GitHub.buildGithubClient, slashed. cbn [GitHub.vcsInfo ApiEndpoint Token].
    rewrite (decide_True (P := endpoint +:+ "/" ≠ "")) by (by destruct endpoint).
    by rewrite TrimSuffix_app. }
  split; [exact Hsame|]. split; [exact Hplain|].
  unfold GitHub.TestConnection, GitHub.AddSshKeyToRepository, GitHub.ListRepositories,
    GitHub.ListBranches, GitHub.CreateWebhook, GitHub.UpdateWebhook, GitHub.DeleteWebhook,
    GitHub.SetCommitStatus, GitHub.DownloadRepository, GitHub.CreatePullRequest,
    GitHub.GetLatestCommit, GitHub.GetRepositoryInfo, GitHub.GetCommitBySha.
  by rewrite Hsame.
Qed.

End Endpoint.

(** ** The listing loops under any platform *)

Section ListingInvariants.
Context {vocab : Vocabulary} {ext : Externals} {github : GitHub.Server} {gitlab : GitLab.Sdk}.

Lemma github_page_calls_cons (p : Z) (k : nat) :
  github_page_calls p (S k)
  = GitHub.call (GitHub.Repositories_List "" p) :: github_page_calls (p + 1) k.
Proof.
  unfold github_page_calls. rewrite (seqZ_cons p (Z.of_nat (S k))) by lia.
  replace (Z.pred (Z.of_nat (S k))) with (Z.of_nat k) by lia.
  by replace (Z.succ p) with (p + 1) by lia.
Qed.

Lemma github_page_calls_0 (p : Z) : github_page_calls p 0 = [].
Proof. reflexivity. Qed.

Lemma github_loop_requests (fuel : nat) : ∀ c p results w,
  0 ≤ p → p + Z.of_nat fuel < 2 ^ 63 →
  ∃ k, (k ≤ fuel)%nat ∧
    (GitHub.ListRepositories_loop fuel c p results w).2
    = mkWorld (log w ++ github_page_calls p k) (seed w) ∧
    ((GitHub.ListRepositories_loop fuel c p results w).1 = None → k = fuel) ∧
    (is_Some (GitHub.ListRepositories_loop fuel c p results w).1 → (1 ≤ k)%nat).
Proof.
  induction fuel as [|fuel IH]; intros c p results w Hp Hfuel.
  - exists 0%nat. cbn. rewrite github_page_calls_0, world_eta.
    repeat split; [lia | by intros [? ?]].
  - cbn [GitHub.ListRepositories_loop]. st_unfold.
    destruct (GitHub.serve _ c (log w) (GitHub.Repositories_List "" p))
      as [[repos response]|msg].
    + rewrite int_succ_small by lia.
      destruct (p + 1 >=? GitHub.LastPage response).
      * exists 1%nat. cbn. rewrite github_page_calls_cons, github_page_calls_0.
        repeat split; [lia | done | lia].
      * destruct (IH c (p + 1) (foldl GitHub.add_repo results repos)
                    (mkWorld (log w ++ [GitHub.call (GitHub.Repositories_List "" p)])
                       (seed w))) as (k & Hk & Hlog & Hnone & Hsome); [lia | lia |].
        exists (S k). rewrite Hlog. cbn [log seed].
        rewrite github_page_calls_cons, <- app_assoc.
        repeat split; [lia | | lia].
        intros Hn. by rewrite (Hnone Hn).
    + exists 1%nat. cbn. rewrite github_page_calls_cons, github_page_calls_0.
      repeat split; [lia | done | lia].
Qed.

(** X5. Whatever the platform answers, the GitHub listing requests the
    pages 0, 1, 2, ... in this order, none twice and none skipped, and at
    most as many as the iterations it is given; a run that returns has made
    at least one request unless the client could not be built, and a run
    that is cut off has used every iteration.  No token is drawn. *)
Theorem github_listing_requests_consecutive (fuel : nat) (client : GitHub.GitHubClient)
    (w : World GitHub.Call) :
  Z.of_nat fuel < 2 ^ 63 →
  ∃ k, (k ≤ fuel)%nat ∧
    (GitHub.ListRepositories fuel client w).2
    = mkWorld (log w ++ github_page_calls 0 k) (seed w) ∧
    ((GitHub.ListRepositories fuel client w).1 = None → k = fuel) ∧
    (∀ c, GitHub.buildGithubClient client = inl c →
       is_Some (GitHub.ListRepositories fuel client w).1 → (1 ≤ k)%nat).
Proof.
  intros Hfuel. unfold GitHub.ListRepositories.
  destruct (GitHub.buildGithubClient client) as [c|err].
  - destruct (github_loop_requests fuel c 0 ∅ w) as (k & Hk & Hlog & Hnone & Hsome);
      [lia | lia |].
    exists k. repeat split; [done | done | done |]. intros _ _. exact Hsome.
  - exists 0%nat. cbn. rewrite github_page_calls_0, world_eta.
    repeat split; [lia | done | done].
Qed.

(** X6. The loops have no bound of their own: on a platform whose every
    answer announces a page beyond the one requested, the listing is still
    requesting pages after any number of iterations, on GitHub and, for the
    first group listed, on GitLab. *)
Theorem listing_never_ends_when_more_is_announced (fuel : nat) :
  Z.of_nat fuel + 1 < 2 ^ 63 →
  (∀ client c (lastPage : Z → Z) w,
     GitHub.buildGithubClient client = inl c →
     (∀ q hist, 0 ≤ q →
        ∃ repos, GitHub.serve _ c hist (GitHub.Repositories_List "" q)
                 = inl (repos, {| GitHub.LastPage := lastPage q |})) →
     (∀ q, 0 ≤ q → q + 1 < lastPage q) →
     GitHub.ListRepositories fuel client w
     = (None, mkWorld (log w ++ github_page_calls 0 fuel) (seed w))) ∧
  (∀ client g (groups : list string) (totalPages : Z → Z) w,
     GitLab.serve _ (GitLab.glClient client) (log w) GitLab.Groups_ListGroups
       = inl (g :: groups) →
     (∀ q hist, 1 ≤ q →
        ∃ projects, GitLab.serve _ (GitLab.glClient client) hist
                      (GitLab.Groups_ListGroupProjects g q)
                    = inl (projects, {| GitLab.TotalPages := totalPages q |})) →
     (∀ q, 1 ≤ q → q < totalPages q) →
     GitLab.ListRepositories fuel client w
     = (None, mkWorld (log w ++ GitLab.call GitLab.Groups_ListGroups
                         :: gitlab_page_calls g 1 fuel) (seed w))).
Proof.
  intros Hfuel. split.
  - intros client c lastPage w Hc Hserve Hmore.
    unfold GitHub.ListRepositories. rewrite Hc.
    replace fuel with (fuel + 0)%nat at 1 by lia.
    destruct (github_loop_prefix_any c lastPage fuel 0 ∅ w 0%nat) as [results ->];
      [lia | lia | intros; apply Hserve; lia | intros; apply Hmore; lia |].
    done.
  - intros client g groups totalPages w Hgroups Hserve Hmore.
    unfold GitLab.ListRepositories. st_unfold. rewrite Hgroups.
    cbn [GitLab.ListRepositories_groups]. st_unfold.
    replace fuel with (fuel + 0)%nat at 1 by lia.
    destruct (gitlab_loop_prefix_any client g totalPages fuel 1 ∅
                (mkWorld (log w ++ [GitLab.call GitLab.Groups_ListGroups]) (seed w)) 0%nat)
      as [results ->];
      [lia | lia | intros; apply Hserve; lia | intros; apply Hmore; lia |].
    cbn. by rewrite <- app_assoc.
Qed.

(** X16. The GitHub listing returns what the platform answered, in the
    order of the requests.  When the requests of the pages [0 .. n-1] are
    answered with [pg 0 .. pg (n-1)], each answer naming [n] as the last
    page, the listing makes exactly these [n] requests and lists under every
    owner the names of the answers, in that order.  Nothing is assumed on
    which pages of the platform the answers hold. *)
Theorem github_listing_returns_answers_in_order
    (client : GitHub.GitHubClient) (c : GitHub.Client)
    (pg : Z → list GitHub.Repository) (n : nat) w fuel :
  GitHub.buildGithubClient client = inl c →
  (1 ≤ n)%nat →
  Z.of_nat n < 2 ^ 63 →
  (∀ q hist, 0 ≤ q < Z.of_nat n →
     GitHub.serve _ c hist (GitHub.Repositories_List "" q)
     = inl (pg q, {| GitHub.LastPage := Z.of_nat n |})) →
  (n ≤ fuel)%nat →
  ∃ m, GitHub.ListRepositories fuel client w
       = (Some (Some m, None), mkWorld (log w ++ github_page_calls 0 n) (seed w))
     ∧ length (github_page_calls 0 n) = n
     ∧ ∀ owner, m !! owner = listed owner (github_entries (pg <$> seqZ 0 (Z.of_nat n))).
Proof.
  intros Hc Hn Hlen Hpg Hfuel.
  exists (aggregate (github_entries (pg <$> seqZ 0 (Z.of_nat n)))). repeat apply conj.
  - by apply (github_listing_reads client c).
  - apply github_page_calls_length.
  - intros owner. apply aggregate_lookup.
Qed.

(** X17. The GitLab listing drains every group.  When the platform lists
    [groups] and serves, for each group [g], the pages [pages g] at the
    numbers [1 .. length (pages g)], each answer naming their number as the
    total, the listing asks for the groups, then for the pages of each group
    in order from page 1, and lists under every group the projects of all
    its pages in that order. *)
Theorem gitlab_listing_drains_all_pages
    (client : GitLab.GitLabClient) (groups : list string)
    (pages : string → list (list string)) w fuel :
  GitLab.serve _ (GitLab.glClient client) (log w) GitLab.Groups_ListGroups
    = inl groups →
  (∀ g, g ∈ groups →
     pages g ≠ [] ∧ Z.of_nat (length (pages g)) < 2 ^ 63 ∧
     (length (pages g) ≤ fuel)%nat ∧
     ∀ (i : nat) pg hist, pages g !! i = Some pg →
       GitLab.serve _ (GitLab.glClient client) hist
         (GitLab.Groups_ListGroupProjects g (Z.of_nat i + 1))
       = inl (pg, {| GitLab.TotalPages := Z.of_nat (length (pages g)) |})) →
  ∃ m, GitLab.ListRepositories fuel client w
       = (Some (Some m, None),
          mkWorld (log w ++ GitLab.call GitLab.Groups_ListGroups
                     :: gitlab_all_page_calls groups (λ g, length (pages g)))
            (seed w))
     ∧ (∀ g, length (gitlab_page_calls g 1 (length (pages g))) = length (pages g))
     ∧ ∀ owner, m !! owner = listed owner (gitlab_entries groups pages).
Proof.
  intros Hgroups Hpages.
  exists (aggregate (gitlab_entries groups pages)). repeat apply conj.
  - unfold GitLab.ListRepositories. st_unfold. rewrite Hgroups.
    rewrite (gitlab_groups_run client fuel
               (λ g m, foldl add_entry m (pair g <$> concat (pages g)))
               (λ g, length (pages g))).
    + cbn [log seed]. rewrite gitlab_entries_foldl. by rewrite <- app_assoc.
    + intros g results w1 Hg. destruct (Hpages g Hg) as (Hne & Hlen & Hfuel & Hserve).
      by apply gitlab_group_drains.
  - intros g. apply gitlab_page_calls_length.
  - intros owner. apply aggregate_lookup.
Qed.

(** X18. A page request that fails ends the listing with the error and
    without the entries gathered so far.  On GitHub, after the pages
    [0 .. length pages - 1] were served with more announced, a failing
    request returns a nil map, the error, and no further request is made; on
    GitLab the same holds after the groups [served] and the pages [part] of
    the group [g].  Whatever the platform does, GitHub never returns an error
    together with a map, and GitLab only the empty map it made before its
    request of the groups failed. *)
Theorem listing_failure_discards_entries :
  (∀ client c (pages : list (list GitHub.Repository)) lastPage msg w fuel,
     GitHub.buildGithubClient client = inl c →
     Z.of_nat (length pages) < lastPage →
     Z.of_nat (length pages) < 2 ^ 63 →
     (∀ (i : nat) pg hist, pages !! i = Some pg →
        GitHub.serve _ c hist (GitHub.Repositories_List "" (Z.of_nat i))
        = inl (pg, {| GitHub.LastPage := lastPage |})) →
     (∀ hist, GitHub.serve _ c hist
                (GitHub.Repositories_List "" (Z.of_nat (length pages))) = inr msg) →
     (length pages < fuel)%nat →
     GitHub.ListRepositories fuel client w
     = (Some (None, Some (PlatformError msg)),
        mkWorld (log w ++ github_page_calls 0 (S (length pages))) (seed w))) ∧
  (∀ fuel client w m e w',
     GitHub.ListRepositories fuel client w = (Some (m, Some e), w') → m = None) ∧
  (∀ client (served : list string) g (rest : list string)
     (pages : string → list (list string)) (part : list (list string))
     totalPages msg w fuel,
     GitLab.serve _ (GitLab.glClient client) (log w) GitLab.Groups_ListGroups
       = inl (served ++ g :: rest) →
     (∀ g', g' ∈ served →
        pages g' ≠ [] ∧ Z.of_nat (length (pages g')) < 2 ^ 63 ∧
        (length (pages g') ≤ fuel)%nat ∧
        ∀ (i : nat) pg hist, pages g' !! i = Some pg →
          GitLab.serve _ (GitLab.glClient client) hist
            (GitLab.Groups_ListGroupProjects g' (Z.of_nat i + 1))
          = inl (pg, {| GitLab.TotalPages := Z.of_nat (length (pages g')) |})) →
     Z.of_nat (length part) < totalPages →
     Z.of_nat (length part) + 1 < 2 ^ 63 →
     (∀ (i : nat) pg hist, part !! i = Some pg →
        GitLab.serve _ (GitLab.glClient client) hist
          (GitLab.Groups_ListGroupProjects g (Z.of_nat i + 1))
        = inl (pg, {| GitLab.TotalPages := totalPages |})) →
     (∀ hist, GitLab.serve _ (GitLab.glClient client) hist
                (GitLab.Groups_ListGroupProjects g (Z.of_nat (length part) + 1))
              = inr msg) →
     (length part < fuel)%nat →
     GitLab.ListRepositories fuel client w
     = (Some (None, Some (PlatformError msg)),
        mkWorld (log w ++ GitLab.call GitLab.Groups_ListGroups
                   :: gitlab_all_page_calls served (λ g, length (pages g))
                   ++ gitlab_page_calls g 1 (S (length part)))
          (seed w))) ∧
  (∀ fuel client w m e w',
     GitLab.ListRepositories fuel client w = (Some (m, Some e), w') →
     m = None ∨
     (m = Some ∅ ∧
      w' = mkWorld (log w ++ [GitLab.call GitLab.Groups_ListGroups]) (seed w))).
Proof.
  repeat apply conj.
  - intros client c pages lastPage. intros.
    by apply (github_listing_aborts client c pages lastPage).
  - intros fuel client w m e w'. apply github_listing_error_nil.
  - intros client served g rest pages part totalPages msg w fuel
      Hgroups Hserved Hmore Hlen Hpart Hfail Hfuel.
    unfold GitLab.ListRepositories. st_unfold. rewrite Hgroups.
    rewrite (gitlab_groups_abort client fuel
               (λ g m, foldl add_entry m (pair g <$> concat (pages g)))
               (λ g, length (pages g)) served g rest (PlatformError msg)
               (S (length part))).
    + cbn [log seed]. by rewrite <- app_assoc.
    + intros g' results w1 Hg'. destruct (Hserved g' Hg') as (Hne & Hl & Hf & Hs).
      by apply gitlab_group_drains.
    + intros results w1. by apply (gitlab_group_aborts client g part totalPages).
  - intros fuel client w m e w'. apply gitlab_listing_error_nil.
Qed.

End ListingInvariants.

(** ** What the listing returns under any platform *)

Section ListingResults.
Context {vocab : Vocabulary} {ext : Externals} {github : GitHub.Server} {gitlab : GitLab.Sdk}.

Lemma add_entry_keeps (P : string → Prop) (m : gmap string (list string))
    (e : string * string) :
  P e.1 →
  (∀ o ns, m !! o = Some ns → P o ∧ ns ≠ []) →
  ∀ o ns, add_entry m e !! o = Some ns → P o ∧ ns ≠ [].
Proof.
  intros He Hm o ns. unfold add_entry.
  destruct (decide (e.1 = o)) as [<-|Hne].
  - rewrite lookup_insert_eq. intros [= <-]. split; [done|].
    by destruct (default [] (m !! e.1)).
  - rewrite lookup_insert_ne by done. apply Hm.
Qed.

Lemma foldl_add_entry_keeps (P : string → Prop) (entries : list (string * string)) :
  ∀ m : gmap string (list string),
  Forall (λ e, P e.1) entries →
  (∀ o ns, m !! o = Some ns → P o ∧ ns ≠ []) →
  ∀ o ns, foldl add_entry m entries !! o = Some ns → P o ∧ ns ≠ [].
Proof.
  induction entries as [|e entries IH]; intros m Hall Hm; [done|].
  apply Forall_cons in Hall as [He Hall]. cbn [foldl].
  apply IH; [done|]. by apply add_entry_keeps.
Qed.

Lemma github_loop_no_empty (fuel : nat) : ∀ c p results w m e w',
  no_empty_list results →
  GitHub.ListRepositories_loop fuel c p results w = (Some (Some m, e), w') →
  no_empty_list m.
Proof.
  induction fuel as [|fuel IH]; intros c p results w m e w' Hres; [done|].
  cbn [GitHub.ListRepositories_loop]. st_unfold.
  destruct (GitHub.serve _ c (log w) (GitHub.Repositories_List "" p))
    as [[repos response]|msg]; [|done].
  assert (Hnext : no_empty_list (foldl GitHub.add_repo results repos)).
  { rewrite foldl_add_repo. intros o ns Ho.
    apply (foldl_add_entry_keeps (λ _, True) _ results) in Ho as [_ Ho]; [done | | ].
    - by apply Forall_true.
    - intros o' ns' Ho'. split; [done|]. by apply (Hres o'). }
  destruct (int_succ p >=? GitHub.LastPage response).
  - by intros [= <- <- <-].
  - by apply IH.
Qed.

Lemma gitlab_loop_keeps (groups : list string) (fuel : nat) :
  ∀ client g p results w m w',
  g ∈ groups →
  (∀ o ns, results !! o = Some ns → o ∈ groups ∧ ns ≠ []) →
  GitLab.ListGroupProjects_loop fuel client g p results w = (Some (inl m), w') →
  ∀ o ns, m !! o = Some ns → o ∈ groups ∧ ns ≠ [].
Proof.
  induction fuel as [|fuel IH]; intros client g p results w m w' Hg Hres; [done|].
  cbn [GitLab.ListGroupProjects_loop]. st_unfold.
  destruct (GitLab.serve _ (GitLab.glClient client) (log w)
              (GitLab.Groups_ListGroupProjects g p)) as [[projects response]|msg]; [|done].
  assert (Hnext : ∀ o ns, foldl (GitLab.add_project g) results projects !! o = Some ns →
                    o ∈ groups ∧ ns ≠ []).
  { rewrite foldl_add_project.
    apply (foldl_add_entry_keeps (λ o, o ∈ groups)); [|done].
    apply Forall_fmap, Forall_true. by intros x. }
  destruct (p >=? GitLab.TotalPages response).
  - by intros [= <- <-].
  - by apply IH.
Qed.

Lemma gitlab_groups_keeps (all : list string) (fuel : nat) client (groups : list string) :
  ∀ results w m e w',
  groups ⊆ all →
  (∀ o ns, results !! o = Some ns → o ∈ all ∧ ns ≠ []) →
  GitLab.ListRepositories_groups fuel client groups results w = (Some (Some m, e), w') →
  ∀ o ns, m !! o = Some ns → o ∈ all ∧ ns ≠ [].
Proof.
  induction groups as [|g groups IH]; intros results w m e w' Hsub Hres.
  - simpl. st_unfold. by intros [= <- <- <-].
  - cbn [GitLab.ListRepositories_groups]. st_unfold.
    destruct (GitLab.ListGroupProjects_loop fuel client g 1 results w)
      as [[[results'|err]|] w1] eqn:Hloop; [|done|done].
    apply IH.
    + intros x Hx. apply Hsub. by apply list_elem_of_further.
    + eapply gitlab_loop_keeps; [|exact Hres|exact Hloop].
      apply Hsub, list_elem_of_here.
Qed.

(** X8. Whatever the platform answers, a map returned by a listing holds
    no owner with an empty sequence of names; on GitLab every key of the map
    is one of the groups the platform listed, and a group whose pages hold no
    project is no key of the map. *)
Theorem listing_keys_have_names :
  (∀ fuel client w m e w',
     GitHub.ListRepositories fuel client w = (Some (Some m, e), w') → no_empty_list m) ∧
  (∀ fuel client w m w',
     GitLab.ListRepositories fuel client w = (Some (Some m, None), w') →
     ∃ groups,
       GitLab.serve _ (GitLab.glClient client) (log w) GitLab.Groups_ListGroups
         = inl groups ∧
       ∀ g names, m !! g = Some names → g ∈ groups ∧ names ≠ []).
Proof.
  split.
  - intros fuel client w m e w'. unfold GitHub.ListRepositories.
    destruct (GitHub.buildGithubClient client) as [c|err]; [|done].
    apply github_loop_no_empty. intros o ns Ho. by rewrite lookup_empty in Ho.
  - intros fuel client w m w'. unfold GitLab.ListRepositories. st_unfold.
    destruct (GitLab.serve _ (GitLab.glClient client) (log w) GitLab.Groups_ListGroups)
      as [groups|msg]; [|done].
    intros Hrun. exists groups. split; [done|].
    eapply (gitlab_groups_keeps groups); [done| |exact Hrun].
    intros o ns Ho. by rewrite lookup_empty in Ho.
Qed.

End ListingResults.

(** ** Values returned with an error, and the webhook life cycle *)

Section Values.
Context {vocab : Vocabulary} {ext : Externals} {github : GitHub.Server} {gitlab : GitLab.Sdk}.

(** X9. Whatever the platform answers, a method that returns an error
    returns no data with it: the commit and repository information are the
    zero values, the webhook id and secret are empty, and the branch list is
    nil or, after a failed GitHub listing, the empty slice. *)
Theorem errors_come_with_zero_values :
  (∀ client owner repository branch w v e w',
     GitHub.GetLatestCommit client owner repository branch w = ((v, Some e), w') →
     v = CommitInfo_zero) ∧
  (∀ client owner repository sha w v e w',
     GitHub.GetCommitBySha client owner repository sha w = ((v, Some e), w') →
     v = CommitInfo_zero) ∧
  (∀ client owner repository w v e w',
     GitHub.GetRepositoryInfo client owner repository w = ((v, Some e), w') →
     v = RepositoryInfo_zero) ∧
  (∀ client owner repository branch payloadUrl events w id token e w',
     GitHub.CreateWebhook client owner repository branch payloadUrl events w
     = ((id, token, Some e), w') → id = "" ∧ token = "") ∧
  (∀ client owner repository w branches e w',
     GitHub.ListBranches client owner repository w = ((branches, Some e), w') →
     branches = None ∨ branches = Some []) ∧
  (∀ client owner repository branch payloadUrl events w id token e w',
     GitLab.CreateWebhook client owner repository branch payloadUrl events w
     = ((id, token, Some e), w') → id = "" ∧ token = "") ∧
  (∀ client owner repository w branches e w',
     GitLab.ListBranches client owner repository w = ((branches, Some e), w') →
     branches = None).
Proof.
  repeat apply conj.
  - intros client owner repository branch w v e w'. unfold GitHub.GetLatestCommit.
    destruct (validateParametersNotBlank _); [st_unfold; congruence|].
    destruct (GitHub.buildGithubClient client); [|st_unfold; congruence].
    st_unfold. destruct (GitHub.serve _ _ _ _) as [[|latest others]|msg]; congruence.
  - intros client owner repository sha w v e w'. unfold GitHub.GetCommitBySha.
    destruct (validateParametersNotBlank _); [st_unfold; congruence|].
    destruct (GitHub.buildGithubClient client); [|st_unfold; congruence].
    st_unfold. destruct (GitHub.serve _ _ _ _) as [commit|msg]; congruence.
  - intros client owner repository w v e w'. unfold GitHub.GetRepositoryInfo.
    destruct (validateParametersNotBlank _); [st_unfold; congruence|].
    destruct (GitHub.buildGithubClient client); [|st_unfold; congruence].
    st_unfold. destruct (GitHub.serve _ _ _ _) as [repo|msg]; congruence.
  - intros client owner repository branch payloadUrl events w id token e w'.
    unfold GitHub.CreateWebhook.
    destruct (GitHub.buildGithubClient client); [|st_unfold; by intros [= <- <- _ _]].
    st_unfold. destruct (GitHub.serve _ _ _ _) as [n|msg]; [done|].
    by intros [= <- <- _ _].
  - intros client owner repository w branches e w'. unfold GitHub.ListBranches.
    destruct (GitHub.buildGithubClient client); [|st_unfold; intros [= <- _ _]; by left].
    st_unfold. destruct (GitHub.serve _ _ _ _) as [names|msg]; [done|].
    intros [= <- _ _]. by right.
  - intros client owner repository branch payloadUrl events w id token e w'.
    unfold GitLab.CreateWebhook. st_unfold.
    destruct (GitLab.serve _ _ _ _) as [n|msg]; [done|]. by intros [= <- <- _ _].
  - intros client owner repository w branches e w'. unfold GitLab.ListBranches. st_unfold.
    destruct (GitLab.serve _ _ _ _) as [names|msg]; [done|]. by intros [= <- _ _].
Qed.

(** X10. A webhook created without error hands back the secret it sent:
    the token returned is the one in the hook's configuration (GitHub) or
    options (GitLab), it is the one token drawn by the call, and the id
    returned is the decimal numeral of the number the platform answered. *)
Theorem created_webhook_returns_its_secret :
  (∀ client c owner repository branch payloadUrl events w id token w',
     GitHub.buildGithubClient client = inl c →
     GitHub.CreateWebhook client owner repository branch payloadUrl events w
     = ((id, token, None), w') →
     ∃ hook n,
       w' = mkWorld (log w ++ [GitHub.call
                       (GitHub.Repositories_CreateHook owner repository hook)])
              (S (seed w)) ∧
       GitHub.serve _ c (log w) (GitHub.Repositories_CreateHook owner repository hook)
         = inl n ∧
       id = FormatInt n ∧
       token = token_at (seed w) ∧
       GitHub.Config hook !! "secret" = Some token ∧
       GitHub.Config hook !! "url" = Some payloadUrl ∧
       GitHub.Config hook !! "content_type" = Some "json") ∧
  (∀ client owner repository branch payloadUrl events w id token w',
     GitLab.CreateWebhook client owner repository branch payloadUrl events w
     = ((id, token, None), w') →
     ∃ options n,
       w' = mkWorld (log w ++ [GitLab.call
                       (GitLab.Projects_AddProjectHook
                          (GitLab.getProjectId owner repository) options)])
              (S (seed w)) ∧
       GitLab.serve _ (GitLab.glClient client) (log w)
         (GitLab.Projects_AddProjectHook (GitLab.getProjectId owner repository) options)
         = inl n ∧
       id = FormatInt n ∧
       token = token_at (seed w) ∧
       GitLab.Opt_Token options = token ∧
       GitLab.Opt_URL options = payloadUrl).
Proof.
  split.
  - intros client c owner repository branch payloadUrl events w id token w' Hc.
    unfold GitHub.CreateWebhook. rewrite Hc. st_unfold. cbn [log seed].
    set (hook := GitHub.createGitHubHook (token_at (seed w)) payloadUrl events).
    destruct (GitHub.serve Z c (log w)
                (GitHub.Repositories_CreateHook owner repository hook))
      as [n|msg] eqn:Hserve; [|done].
    intros [= <- <- <-]. exists hook, n. by repeat split.
  - intros client owner repository branch payloadUrl events w id token w'.
    unfold GitLab.CreateWebhook. st_unfold. cbn [log seed].
    set (options := GitLab.hook_options (token_at (seed w))
                      (GitLab.createProjectHook branch payloadUrl events)).
    destruct (GitLab.serve Z (GitLab.glClient client) (log w)
                (GitLab.Projects_AddProjectHook (GitLab.getProjectId owner repository)
                   options)) as [n|msg] eqn:Hserve; [|done].
    intros [= <- <- <-]. exists options, n.
    split; [reflexivity|]. split; [exact Hserve|]. do 3 (split; [reflexivity|]).
    unfold options, GitLab.hook_options. cbn [GitLab.Opt_URL].
    by rewrite gitlab_hook_by_membership.
Qed.

(** X11. Create, then update or delete: the id a GitHub [CreateWebhook]
    returns is the numeral of the platform's number, and where
    [strconv.ParseInt] reads that numeral back, [UpdateWebhook] and
    [DeleteWebhook] called with the returned id address that same number.
    The same holds on GitLab with [strconv.Atoi]. *)
Theorem webhook_life_cycle :
  (∀ client c owner repository branch payloadUrl events w id token w',
     GitHub.buildGithubClient client = inl c →
     GitHub.CreateWebhook client owner repository branch payloadUrl events w
     = ((id, token, None), w') →
     ∃ n,
       GitHub.serve _ c (log w)
         (GitHub.Repositories_CreateHook owner repository
            (GitHub.createGitHubHook (token_at (seed w)) payloadUrl events)) = inl n ∧
       id = FormatInt n ∧
       (strconv_ParseInt id = Some n →
        ∀ branch' payloadUrl' token' events' w2,
          log (GitHub.UpdateWebhook client owner repository branch' payloadUrl' token' id
                 events' w2).2
          = log w2 ++ [GitHub.call (GitHub.Repositories_EditHook owner repository n
                         (GitHub.createGitHubHook token' payloadUrl' events'))] ∧
          log (GitHub.DeleteWebhook client owner repository id w2).2
          = log w2 ++ [GitHub.call (GitHub.Repositories_DeleteHook owner repository n)])) ∧
  (∀ client owner repository branch payloadUrl events w id token w',
     GitLab.CreateWebhook client owner repository branch payloadUrl events w
     = ((id, token, None), w') →
     ∃ n,
       GitLab.serve _ (GitLab.glClient client) (log w)
         (GitLab.Projects_AddProjectHook (GitLab.getProjectId owner repository)
            (GitLab.hook_options (token_at (seed w))
               (GitLab.createProjectHook branch payloadUrl events))) = inl n ∧
       id = FormatInt n ∧
       (strconv_Atoi id = Some n →
        ∀ branch' payloadUrl' token' events' w2,
          log (GitLab.UpdateWebhook client owner repository branch' payloadUrl' token' id
                 events' w2).2
          = log w2 ++ [GitLab.call (GitLab.Projects_EditProjectHook
                         (GitLab.getProjectId owner repository) n
                         (GitLab.hook_options token'
                            (GitLab.createProjectHook branch' payloadUrl' events')))] ∧
          log (GitLab.DeleteWebhook client owner repository id w2).2
          = log w2 ++ [GitLab.call (GitLab.Projects_DeleteProjectHook
                         (GitLab.getProjectId owner repository) n)])).
Proof.
  split.
  - intros client c owner repository branch payloadUrl events w id token w' Hc.
    unfold GitHub.CreateWebhook. rewrite Hc. st_unfold. cbn [log seed].
    destruct (GitHub.serve Z c (log w)
                (GitHub.Repositories_CreateHook owner repository
                   (GitHub.createGitHubHook (token_at (seed w)) payloadUrl events)))
      as [n|msg] eqn:Hserve; [|done].
    intros [= <- <- <-]. exists n. split; [done|]. split; [done|]. intros Hparse.
    intros branch' payloadUrl' token' events' w2.
    unfold GitHub.UpdateWebhook, GitHub.DeleteWebhook. rewrite Hc, Hparse. by st_unfold.
  - intros client owner repository branch payloadUrl events w id token w'.
    unfold GitLab.CreateWebhook. st_unfold. cbn [log seed].
    destruct (GitLab.serve Z (GitLab.glClient client) (log w)
                (GitLab.Projects_AddProjectHook (GitLab.getProjectId owner repository)
                   (GitLab.hook_options (token_at (seed w))
                      (GitLab.createProjectHook branch payloadUrl events))))
      as [n|msg] eqn:Hserve; [|done].
    intros [= <- <- <-]. exists n. split; [done|]. split; [done|]. intros Hparse.
    intros branch' payloadUrl' token' events' w2.
    unfold GitLab.UpdateWebhook, GitLab.DeleteWebhook. rewrite Hparse. by st_unfold.
Qed.

End Values.

(** ** Single operations *)

Lemma foldl_snoc_all {A} (l : list A) :
  ∀ acc, foldl (λ results x, results ++ [x]) acc l = acc ++ l.
Proof.
  induction l as [|x l IH]; intros acc; cbn [foldl]; [by rewrite app_nil_r|].
  by rewrite IH, <- app_assoc.
Qed.

Lemma unmapped_status_is_empty {vocab : Vocabulary} (status : CommitStatus) :
  status ∉ [Pass; Fail; Error; InProgress] →
  GitHub.getGitHubCommitState status = "" ∧ GitLab.getGitLabCommitState status = "".
Proof.
  intros Hs. rewrite !not_elem_of_cons in Hs. destruct Hs as (? & ? & ? & ? & _).
  unfold GitHub.getGitHubCommitState, GitLab.getGitLabCommitState.
  by repeat case_decide.
Qed.

Section SingleOperations.
Context {vocab : Vocabulary} {ext : Externals} {github : GitHub.Server} {gitlab : GitLab.Sdk}.

(** X12. [SetCommitStatus] refuses no status: for a status outside the four
    constants it still makes its one call, with the empty string as the
    state, on GitHub (once the client is built) and on GitLab, and returns
    what the platform answers. *)
Theorem commit_status_sent_even_when_unmapped (status : CommitStatus)
    (owner repository ref title description detailsUrl : string) :
  status ∉ [Pass; Fail; Error; InProgress] →
  (∀ client c w,
     GitHub.buildGithubClient client = inl c →
     let request := GitHub.Repositories_CreateStatus owner repository ref
                      {| GitHub.Context := title; GitHub.TargetURL := detailsUrl;
                         GitHub.State := ""; GitHub.Description := description |} in
     GitHub.SetCommitStatus client status owner repository ref title description
       detailsUrl w
     = (GitHub.err_of (GitHub.serve _ c (log w) request),
        mkWorld (log w ++ [GitHub.call request]) (seed w))) ∧
  (∀ client w,
     let request := GitLab.Commits_SetCommitStatus
                      (GitLab.getProjectId owner repository) ref
                      {| GitLab.State := ""; GitLab.Ref := ref; GitLab.Name := title;
                         GitLab.Description := description;
                         GitLab.TargetURL := detailsUrl |} in
     GitLab.SetCommitStatus client status owner repository ref title description
       detailsUrl w
     = (GitLab.err_of (GitLab.serve _ (GitLab.glClient client) (log w) request),
        mkWorld (log w ++ [GitLab.call request]) (seed w))).
Proof.
  intros Hstatus.
  destruct (unmapped_status_is_empty status Hstatus) as [Hgh Hgl].
  split.
  - intros client c w Hc request. unfold GitHub.SetCommitStatus. rewrite Hc, Hgh.
    by st_unfold.
  - intros client w request. unfold GitLab.SetCommitStatus. rewrite Hgl. by st_unfold.
Qed.

(** X13. [ListBranches] returns the branch names the platform answered,
    all of them and in the platform's order, after exactly one call. *)
Theorem list_branches_in_platform_order (owner repository : string)
    (names : list string) :
  (∀ client c w,
     GitHub.buildGithubClient client = inl c →
     GitHub.serve _ c (log w) (GitHub.Repositories_ListBranches owner repository)
       = inl names →
     GitHub.ListBranches client owner repository w
     = ((Some names, None),
        mkWorld (log w ++ [GitHub.call (GitHub.Repositories_ListBranches owner repository)])
          (seed w))) ∧
  (∀ client w,
     GitLab.serve _ (GitLab.glClient client) (log w)
       (GitLab.Branches_ListBranches (GitLab.getProjectId owner repository)) = inl names →
     GitLab.ListBranches client owner repository w
     = ((Some names, None),
        mkWorld (log w ++ [GitLab.call (GitLab.Branches_ListBranches
                                          (GitLab.getProjectId owner repository))])
          (seed w))).
Proof.
  split.
  - intros client c w Hc Hserve. unfold GitHub.ListBranches. rewrite Hc. st_unfold.
    rewrite Hserve. by rewrite foldl_snoc_all.
  - intros client w Hserve. unfold GitLab.ListBranches. st_unfold.
    rewrite Hserve. by rewrite foldl_snoc_all.
Qed.

(** X14. [DownloadRepository] extracts only what it downloaded.  On GitHub
    a failed archive link ends the method after that one call; a failed
    download of the link ends it after two; otherwise the body downloaded
    from the link is handed to [Untar] with the local path, and the error of
    the extraction is the result.  On GitLab a failed archive call ends the
    method, and otherwise the archive bytes go to [Untar]. *)
Theorem download_extracts_what_it_fetched (owner repository branch localPath : string) :
  (∀ client c w,
     GitHub.buildGithubClient client = inl c →
     let link := GitHub.Repositories_GetArchiveLink owner repository branch in
     let w1 := mkWorld (log w ++ [GitHub.call link]) (seed w) in
     (∀ msg, GitHub.serve _ c (log w) link = inr msg →
        GitHub.DownloadRepository client owner repository branch localPath w
        = (Some (PlatformError msg), w1)) ∧
     (∀ url, GitHub.serve _ c (log w) link = inl url →
        let w2 := mkWorld (log w1 ++ [GitHub.call (GitHub.Http_Get url)]) (seed w) in
        (∀ msg, GitHub.serve _ c (log w1) (GitHub.Http_Get url) = inr msg →
           GitHub.DownloadRepository client owner repository branch localPath w
           = (Some (PlatformError msg), w2)) ∧
        (∀ body, GitHub.serve _ c (log w1) (GitHub.Http_Get url) = inl body →
           GitHub.DownloadRepository client owner repository branch localPath w
           = (GitHub.err_of (GitHub.serve _ c (log w2) (GitHub.Untar localPath body)),
              mkWorld (log w2 ++ [GitHub.call (GitHub.Untar localPath body)]) (seed w))))) ∧
  (∀ client w,
     let archive := GitLab.Repositories_Archive (GitLab.getProjectId owner repository)
                      {| GitLab.Format := "tar.gz"; GitLab.SHA := branch |} in
     let w1 := mkWorld (log w ++ [GitLab.call archive]) (seed w) in
     (∀ msg, GitLab.serve _ (GitLab.glClient client) (log w) archive = inr msg →
        GitLab.DownloadRepository client owner repository branch localPath w
        = (Some (PlatformError msg), w1)) ∧
     (∀ body, GitLab.serve _ (GitLab.glClient client) (log w) archive = inl body →
        GitLab.DownloadRepository client owner repository branch localPath w
        = (GitLab.err_of (GitLab.serve _ (GitLab.glClient client) (log w1)
                            (GitLab.Untar localPath body)),
           mkWorld (log w1 ++ [GitLab.call (GitLab.Untar localPath body)]) (seed w)))).
Proof.
  split.
  - intros client c w Hc link w1. subst link w1.
    unfold GitHub.DownloadRepository. rewrite Hc. st_unfold. cbn [log seed]. split.
    + by intros msg ->.
    + intros url Hurl. cbv zeta. rewrite Hurl. cbn [log seed]. split.
      * by intros msg ->.
      * by intros body ->.
  - intros client w archive w1. subst archive w1.
    unfold GitLab.DownloadRepository. st_unfold. cbn [log seed]. split.
    + by intros msg ->.
    + by intros body ->.
Qed.

End SingleOperations.

Lemma string_app_cons (x : ascii) (s t : string) : String x s +:+ t = String x (s +:+ t).
Proof. reflexivity. Qed.

Lemma string_app_nil (t : string) : "" +:+ t = t.
Proof. reflexivity. Qed.

Lemma string_app_assoc (a b c : string) : (a +:+ b) +:+ c = a +:+ (b +:+ c).
Proof.
  induction a as [|x a IH]; [done|]. rewrite !string_app_cons. by rewrite IH.
Qed.

(** X15. The GitLab project identifier joins owner and project with a
    slash.  Among owners that hold no slash it tells every (owner, project)
    pair apart; an owner with a slash is read the same as the shorter owner
    with the rest moved into the project. *)
Theorem project_id_separates_plain_owners :
  (∀ owner owner' project project',
     has_slash owner = false → has_slash owner' = false →
     GitLab.getProjectId owner project = GitLab.getProjectId owner' project' →
     owner = owner' ∧ project = project') ∧
  (∀ group subgroup project,
     GitLab.getProjectId (group +:+ "/" +:+ subgroup) project
     = GitLab.getProjectId group (subgroup +:+ "/" +:+ project)).
Proof.
  split.
  - unfold GitLab.getProjectId.
    induction owner as [|c owner IH]; intros [|c' owner'] project project' Hs Hs' Heq;
      rewrite ?string_app_cons, ?string_app_nil in Heq.
    + by injection Heq as ->.
    + simpl in Hs'. injection Heq as <- _.
      by rewrite bool_decide_eq_true_2 in Hs'.
    + simpl in Hs. injection Heq as -> _.
      by rewrite bool_decide_eq_true_2 in Hs.
    + simpl in Hs, Hs'. injection Heq as -> Heq.
      apply orb_false_elim in Hs as [_ Hs]. apply orb_false_elim in Hs' as [_ Hs'].
      destruct (IH owner' project project' Hs Hs' Heq) as [-> ->]. done.
  - intros group subgroup project. unfold GitLab.getProjectId.
    by rewrite !string_app_assoc.
Qed.

(** ** Runs of the further properties in the concrete setting *)

Section MoreRuns.
#[local] Existing Instances Demo.vocabulary Demo.externals Demo.gh_ok Demo.gl_ok.

Lemma github_events_in_order_witness :
  GitHub.getGitHubWebhookEvents (["opened"; "tag"] ++ ["synchronize"; "push"])
  = ["pull_request"] ++ ["pull_request"; "push"].
Proof.
  exact (proj1 (github_events_in_order (vocab := Demo.vocabulary))
           ["opened"; "tag"] ["synchronize"; "push"]).
Defined.

Lemma gitlab_hook_by_membership_witness :
  GitLab.createProjectHook "main" "https://ci.example/hook" ["push"; "tag"; "push"]
  = {| GitLab.URL := "https://ci.example/hook"; GitLab.MergeRequestsEvents := false;
       GitLab.PushEvents := true; GitLab.PushEventsBranchFilter := "main" |}.
Proof.
  exact (gitlab_hook_by_membership (vocab := Demo.vocabulary)
           "main" "https://ci.example/hook" ["push"; "tag"; "push"]).
Defined.

Lemma gitlab_webhook_branch_only_with_push_witness :
  GitLab.CreateWebhook Demo.gl_ok_client "jfrog" "repo-1" "main"
    "https://ci.example/hook" ["opened"] Demo.w0
  = GitLab.CreateWebhook Demo.gl_ok_client "jfrog" "repo-1" "release"
      "https://ci.example/hook" ["opened"] Demo.w0 ∧
  log (GitLab.CreateWebhook Demo.gl_ok_client "jfrog" "repo-1" "main"
         "https://ci.example/hook" ["push"] Demo.w0).2
  = [GitLab.call (GitLab.Projects_AddProjectHook "jfrog/repo-1"
       {| GitLab.Opt_Token := "secret-0"; GitLab.Opt_URL := "https://ci.example/hook";
          GitLab.Opt_MergeRequestsEvents := false; GitLab.Opt_PushEvents := true;
          GitLab.Opt_PushEventsBranchFilter := "main" |})].
Proof.
  destruct (gitlab_webhook_branch_only_with_push Demo.gl_ok_client "jfrog" "repo-1"
              "https://ci.example/hook" Demo.w0) as (Hfree & Hpush & _).
  split.
  - apply Hfree. not_listed.
  - rewrite (Hpush "main" ["push"]) by apply list_elem_of_here. reflexivity.
Defined.

Lemma github_endpoint_trailing_slash_witness :
  GitHub.buildGithubClient
    {| GitHub.vcsInfo := {| ApiEndpoint := "https://ghe.example/api/v3/";
                            Token := "abc123"; Username := "" |} |}
  = GitHub.buildGithubClient
      {| GitHub.vcsInfo := {| ApiEndpoint := "https://ghe.example/api/v3";
                              Token := "abc123"; Username := "" |} |}.
Proof.
  apply (github_endpoint_trailing_slash "https://ghe.example/api/v3" "abc123" "").
  - discriminate.
  - intros p Hp. pose proof (TrimSuffix_app p "/") as Htrim.
    rewrite <- Hp in Htrim. vm_compute in Htrim. subst p.
    apply (f_equal String.length) in Hp. vm_compute in Hp. discriminate.
Defined.

Lemma github_listing_requests_consecutive_witness :
  ∃ k, (k ≤ 2)%nat ∧
    (GitHub.ListRepositories 2 Demo.github_client Demo.w0).2
    = mkWorld ([] ++ github_page_calls 0 k) 0.
Proof.
  destruct (github_listing_requests_consecutive 2 Demo.github_client Demo.w0)
    as (k & Hk & Hlog & _); [by vm_compute|].
  exists k. by split.
Defined.

Lemma listing_never_ends_when_more_is_announced_witness :
  GitHub.ListRepositories (github := Demo.gh_endless) 4 Demo.github_client Demo.w0
  = (None, mkWorld (github_page_calls 0 4) 0) ∧
  GitLab.ListRepositories (gitlab := Demo.gl_endless) 4 Demo.gl_endless_client Demo.w0
  = (None, mkWorld (GitLab.call GitLab.Groups_ListGroups :: gitlab_page_calls "jfrog" 1 4) 0).
Proof.
  destruct (listing_never_ends_when_more_is_announced (github := Demo.gh_endless)
              (gitlab := Demo.gl_endless) 4) as [Hgh Hgl]; [by vm_compute|].
  split.
  - apply (Hgh Demo.github_client Demo.github_built (λ q, q + 2) Demo.w0).
    + reflexivity.
    + intros q hist _. by eexists.
    + intros q _. lia.
  - apply (Hgl Demo.gl_endless_client "jfrog" ["frogger"] (λ q, q + 1) Demo.w0).
    + reflexivity.
    + intros q hist _. by eexists.
    + intros q _. lia.
Defined.

Lemma github_listing_returns_answers_in_order_witness :
  ∃ m, GitHub.ListRepositories 3 Demo.github_client Demo.w0
       = (Some (Some m, None), mkWorld (github_page_calls 0 3) 0)
     ∧ m !! "jfrog" = Some ["repo-1"; "repo-2"; "repo-3"]
     ∧ m !! "frogger" = Some ["pond"; "lily"]
     ∧ m !! "toad" = None.
Proof.
  edestruct (github_listing_returns_answers_in_order Demo.github_client Demo.github_built
               (λ q, default [] (Demo.github_pages !! Z.to_nat q)) 3 Demo.w0 3%nat)
    as (m & Hrun & _ & Hm).
  - reflexivity.
  - lia.
  - by vm_compute.
  - intros q hist Hq.
    assert (q = 0 ∨ q = 1 ∨ q = 2) as [-> | [-> | ->]] by lia; reflexivity.
  - lia.
  - exists m. split; [exact Hrun|]. rewrite !Hm. by vm_compute.
Defined.

Lemma gitlab_listing_drains_all_pages_witness :
  ∃ m, GitLab.ListRepositories 2 Demo.gl_ok_client Demo.w0
       = (Some (Some m, None),
          mkWorld (GitLab.call GitLab.Groups_ListGroups
                     :: gitlab_page_calls "jfrog" 1 2 ++ gitlab_page_calls "frogger" 1 1) 0)
     ∧ m !! "jfrog" = Some ["repo-1"; "repo-2"; "repo-3"]
     ∧ m !! "frogger" = Some ["pond"].
Proof.
  edestruct (gitlab_listing_drains_all_pages Demo.gl_ok_client ["jfrog"; "frogger"]
               Demo.gitlab_pages Demo.w0 2%nat) as (m & Hrun & _ & Hm).
  - reflexivity.
  - intros g Hg.
    apply elem_of_cons in Hg as [->|Hg]; [|apply elem_of_cons in Hg as [->|Hg]];
      [| | by apply elem_of_nil in Hg].
    + split; [discriminate|]. split; [by vm_compute|]. split; [simpl; lia|].
      intros i pg hist Hi. by_page Hi.
    + split; [discriminate|]. split; [by vm_compute|]. split; [simpl; lia|].
      intros i pg hist Hi. by_page Hi.
  - exists m. split; [exact Hrun|]. rewrite !Hm. by vm_compute.
Defined.

Lemma listing_failure_discards_entries_witness :
  GitHub.ListRepositories (github := Demo.gh_broken) 5 Demo.github_client Demo.w0
  = (Some (None, Some (PlatformError "502 Bad Gateway")), mkWorld (github_page_calls 0 2) 0) ∧
  GitLab.ListRepositories (gitlab := Demo.gl_broken) 2 Demo.gl_broken_client Demo.w0
  = (Some (None, Some (PlatformError "502 Bad Gateway")),
     mkWorld (GitLab.call GitLab.Groups_ListGroups
                :: gitlab_page_calls "jfrog" 1 2 ++ gitlab_page_calls "frogger" 1 1) 0).
Proof.
  split.
  - destruct (listing_failure_discards_entries (github := Demo.gh_broken)) as (Hgh & _).
    apply (Hgh Demo.github_client Demo.github_built [Demo.github_pages !!! 0%nat] 3
             "502 Bad Gateway" Demo.w0 5%nat).
    + reflexivity.
    + simpl. lia.
    + by vm_compute.
    + intros i pg hist Hi. by_page Hi.
    + reflexivity.
    + simpl. lia.
  - destruct (listing_failure_discards_entries (gitlab := Demo.gl_broken))
      as (_ & _ & Hgl & _).
    apply (Hgl Demo.gl_broken_client ["jfrog"] "frogger" ["toad"] Demo.gitlab_pages []
             1 "502 Bad Gateway" Demo.w0 2%nat).
    + reflexivity.
    + intros g Hg. apply elem_of_cons in Hg as [->|Hg]; [|by apply elem_of_nil in Hg].
      split; [discriminate|]. split; [by vm_compute|]. split; [simpl; lia|].
      intros i pg hist Hi. by_page Hi.
    + simpl. lia.
    + by vm_compute.
    + intros i pg hist Hi. by_page Hi.
    + reflexivity.
    + simpl. lia.
Defined.

Lemma listing_keys_have_names_witness :
  (∃ m, (GitHub.ListRepositories 3 Demo.github_client Demo.w0).1 = Some (Some m, None)
        ∧ no_empty_list m) ∧
  (∃ m, (GitLab.ListRepositories 2 Demo.gl_ok_client Demo.w0).1 = Some (Some m, None)
        ∧ ∀ g names, m !! g = Some names → g ∈ ["jfrog"; "frogger"] ∧ names ≠ []).
Proof.
  destruct listing_keys_have_names as [Hgh Hgl]. split.
  - destruct (GitHub.ListRepositories 3 Demo.github_client Demo.w0)
      as [[[[m|] [e|]]|] w'] eqn:Hrun; try (vm_compute in Hrun; discriminate).
    exists m. split; [done|]. by apply (Hgh _ _ _ _ _ _ Hrun).
  - destruct (GitLab.ListRepositories 2 Demo.gl_ok_client Demo.w0)
      as [[[[m|] [e|]]|] w'] eqn:Hrun; try (vm_compute in Hrun; discriminate).
    exists m. split; [done|].
    destruct (Hgl _ _ _ _ _ Hrun) as (groups & Hgroups & Hkeys).
    injection Hgroups as <-. exact Hkeys.
Defined.

Lemma errors_come_with_zero_values_witness :
  (GitHub.GetCommitBySha Demo.github_client "jfrog" "repo-1" "ff4a54b5" Demo.w0).1.2
  = Some (PlatformError "404 Not Found") ∧
  (GitHub.GetCommitBySha Demo.github_client "jfrog" "repo-1" "ff4a54b5" Demo.w0).1.1
  = CommitInfo_zero ∧
  (GitHub.GetLatestCommit Demo.github_client "jfrog" "repo-1" " " Demo.w0).1.1
  = CommitInfo_zero.
Proof.
  destruct errors_come_with_zero_values as (Hlatest & Hsha & _).
  split; [reflexivity|]. split.
  - apply (Hsha Demo.github_client "jfrog" "repo-1" "ff4a54b5" Demo.w0 _
             (PlatformError "404 Not Found")
             (GitHub.GetCommitBySha Demo.github_client "jfrog" "repo-1" "ff4a54b5"
                Demo.w0).2).
    reflexivity.
  - apply (Hlatest Demo.github_client "jfrog" "repo-1" " " Demo.w0 _ ValidationError
             (GitHub.GetLatestCommit Demo.github_client "jfrog" "repo-1" " " Demo.w0).2).
    reflexivity.
Defined.

Lemma created_webhook_returns_its_secret_witness :
  (GitHub.CreateWebhook Demo.github_client "jfrog" "repo-1" "main"
     "https://ci.example/hook" ["push"] Demo.w0).1 = ("17", "secret-0", None) ∧
  ∃ hook,
    log (GitHub.CreateWebhook Demo.github_client "jfrog" "repo-1" "main"
           "https://ci.example/hook" ["push"] Demo.w0).2
    = [GitHub.call (GitHub.Repositories_CreateHook "jfrog" "repo-1" hook)] ∧
    GitHub.Config hook !! "secret" = Some "secret-0".
Proof.
  split; [reflexivity|].
  destruct (proj1 (created_webhook_returns_its_secret (vocab := Demo.vocabulary))
               Demo.github_client Demo.github_built
               "jfrog" "repo-1" "main" "https://ci.example/hook" ["push"] Demo.w0
               "17" "secret-0"
               (mkWorld [GitHub.call (GitHub.Repositories_CreateHook "jfrog" "repo-1"
                           (GitHub.createGitHubHook (vocab := Demo.vocabulary)
                              "secret-0" "https://ci.example/hook" ["push"]))] 1))
    as (hook & n & Hw & _ & _ & _ & Hsecret & _); [reflexivity | reflexivity |].
  exists hook. split; [|exact Hsecret].
  apply (f_equal log) in Hw. exact Hw.
Defined.

Lemma webhook_life_cycle_witness :
  (GitHub.CreateWebhook Demo.github_client "jfrog" "repo-1" "main"
     "https://ci.example/hook" ["push"] Demo.w0).1 = ("17", "secret-0", None) ∧
  log (GitHub.UpdateWebhook Demo.github_client "jfrog" "repo-1" "main"
         "https://ci.example/new" "s3cret" "17" ["opened"] Demo.w0).2
  = [GitHub.call (GitHub.Repositories_EditHook "jfrog" "repo-1" 17
       (GitHub.createGitHubHook "s3cret" "https://ci.example/new" ["opened"]))] ∧
  log (GitHub.DeleteWebhook Demo.github_client "jfrog" "repo-1" "17" Demo.w0).2
  = [GitHub.call (GitHub.Repositories_DeleteHook "jfrog" "repo-1" 17)].
Proof.
  destruct (proj1 (webhook_life_cycle (vocab := Demo.vocabulary))
               Demo.github_client Demo.github_built
               "jfrog" "repo-1" "main" "https://ci.example/hook" ["push"] Demo.w0
               "17" "secret-0"
               (mkWorld [GitHub.call (GitHub.Repositories_CreateHook "jfrog" "repo-1"
                           (GitHub.createGitHubHook (vocab := Demo.vocabulary)
                              "secret-0" "https://ci.example/hook" ["push"]))] 1))
    as (n & Hn & _ & Hnext); [reflexivity | reflexivity |].
  injection Hn as <-.
  split; [reflexivity|].
  apply (Hnext eq_refl "main" "https://ci.example/new" "s3cret" ["opened"] Demo.w0).
Defined.

Lemma commit_status_sent_even_when_unmapped_witness :
  GitHub.SetCommitStatus Demo.github_client (7 : Z) "jfrog" "repo-1" "ff4a54b5"
    "build" "odd" "https://ci.example/1" Demo.w0
  = (None,
     mkWorld [GitHub.call (GitHub.Repositories_CreateStatus "jfrog" "repo-1" "ff4a54b5"
                {| GitHub.Context := "build"; GitHub.TargetURL := "https://ci.example/1";
                   GitHub.State := ""; GitHub.Description := "odd" |})] 0).
Proof.
  destruct (commit_status_sent_even_when_unmapped (vocab := Demo.vocabulary) (7 : Z)
              "jfrog" "repo-1" "ff4a54b5" "build" "odd" "https://ci.example/1")
    as [Hgh _]; [not_listed|].
  rewrite (Hgh Demo.github_client Demo.github_built Demo.w0 eq_refl). reflexivity.
Defined.

Lemma list_branches_in_platform_order_witness :
  GitHub.ListBranches Demo.github_client "jfrog" "repo-1" Demo.w0
  = ((Some ["main"; "dev"], None),
     mkWorld [GitHub.call (GitHub.Repositories_ListBranches "jfrog" "repo-1")] 0).
Proof.
  apply (proj1 (list_branches_in_platform_order "jfrog" "repo-1" ["main"; "dev"])
           Demo.github_client Demo.github_built Demo.w0); reflexivity.
Defined.

Lemma download_extracts_what_it_fetched_witness :
  GitHub.DownloadRepository Demo.github_client "jfrog" "repo-1" "main" "/tmp/out" Demo.w0
  = (None,
     mkWorld [GitHub.call (GitHub.Repositories_GetArchiveLink "jfrog" "repo-1" "main");
              GitHub.call (GitHub.Http_Get "https://codeload.example/archive");
              GitHub.call (GitHub.Untar "/tmp/out" "archive-bytes")] 0).
Proof.
  destruct (proj1 (download_extracts_what_it_fetched "jfrog" "repo-1" "main" "/tmp/out")
              Demo.github_client Demo.github_built Demo.w0 eq_refl) as [_ Hlink].
  destruct (Hlink "https://codeload.example/archive" eq_refl) as [_ Hbody].
  rewrite (Hbody "archive-bytes" eq_refl). reflexivity.
Defined.

Lemma project_id_separates_plain_owners_witness :
  (∀ project project',
     GitLab.getProjectId "jfrog" project = GitLab.getProjectId "jfrog" project' →
     project = project') ∧
  GitLab.getProjectId "jfrog/tools" "cli" = GitLab.getProjectId "jfrog" "tools/cli".
Proof.
  destruct project_id_separates_plain_owners as [Hinj Hsub]. split.
  - intros project project' Heq.
    by destruct (Hinj "jfrog" "jfrog" project project' eq_refl eq_refl Heq).
  - exact (Hsub "jfrog" "tools" "cli").
Defined.

End MoreRuns.
